(** * banalysis: the midata reader and the dashboard update handler

    A shallow embedding of [banalysis/inputs.py] ([read_midata],
    [_check_midata_columns]), [banalysis/errors.py] and the update handler of
    [banalysis/dashboard.py] ([Dashboard._update_source]), followed by the
    properties of the written specification that were checked against them.

    The Python code is a short sequence of calls into pandas.  The pandas
    primitives it calls are modelled in [Module Pandas] with the behaviour of
    the library's defaults; the functions of the repository are in
    [Module Inputs] and [Module Dashboard] and follow the source line by
    line.

    Conventions of the model:
    - a Python [str] is a Rocq [string]; each 8-bit character is read as the
      Unicode code point of the same number (Latin-1), so the pound sign is
      the single character 163.  Code points above 255 are outside the model;
    - a number is an exact rational ([Q], kept in lowest terms): the rounding
      of float64 is not modelled, nor is the difference between int64 and
      float64;
    - raising an exception is returning [Raise e] in the error monad
      [result]. *)

From Stdlib Require Import List String Ascii Bool Arith ZArith QArith Qround Lia.
Import ListNotations.

Local Open Scope string_scope.
Local Open Scope list_scope.
Local Open Scope nat_scope.

Infix "+++" := String.append (right associativity, at level 60).

(* ===================================================================== *)
(** ** Exceptions and the error monad *)
(* ===================================================================== *)

(** The pandas function a [ValueError] comes from.  The source raises no
    [ValueError] of its own: [pd.to_numeric] and [pd.to_datetime] are called
    with [errors="raise"]. *)
Inductive pandas_fn : Type :=
  | to_numeric_fn
  | to_datetime_fn.

(** [errors.py]: [MidataCSVError] derives from [BaseBanalysisException]; the
    others are the built-in exceptions that the calls of [read_midata] and
    [_update_source] can raise. *)
Inductive exn : Type :=
  | MidataCSVError (msg : string)
  | IndexError
  | AttributeError
  | KeyError
  | TypeError
  | ValueError (raised_by : pandas_fn)
  | ValueError_builtin
  | OverflowError.

Inductive result (A : Type) : Type :=
  | Ok (a : A)
  | Raise (e : exn).

Arguments Ok {A} a.
Arguments Raise {A} e.

Definition bind {A B : Type} (r : result A) (k : A -> result B) : result B :=
  match r with
  | Ok a => k a
  | Raise e => Raise e
  end.

Notation "x <- r ;; k" := (bind r (fun x => k))
  (at level 61, r at next level, right associativity).

(** Run [f] on every element, left to right, stopping at the first
    exception. *)
Fixpoint mapM {A B : Type} (f : A -> result B) (l : list A) : result (list B) :=
  match l with
  | [] => Ok []
  | a :: l' => b <- f a ;; bs <- mapM f l' ;; Ok (b :: bs)
  end.

(* ===================================================================== *)
(** ** Python [str] methods *)
(* ===================================================================== *)

Module PyStr.

Definition code (c : ascii) : nat := nat_of_ascii c.

(** The pound sign, U+00A3. *)
Definition pound_char : ascii := ascii_of_nat 163.
Definition pound : string := String pound_char "".

Definition in_range (lo hi n : nat) : bool := (lo <=? n) && (n <=? hi).

(** [str.isspace] on one character of the Latin-1 range: TAB..CR, FS..US,
    SPACE, NEL and NBSP. *)
Definition isspace (c : ascii) : bool :=
  let n := code c in
  in_range 9 13 n || in_range 28 32 n || (n =? 133) || (n =? 160).

Definition isdigit (c : ascii) : bool := in_range 48 57 (code c).

(** [str.lower] on one character: A..Z and the Latin-1 capitals
    (all of 192..222 but the multiplication sign 215) move up by 32. *)
Definition lower_char (c : ascii) : ascii :=
  let n := code c in
  if in_range 65 90 n || (in_range 192 222 n && negb (n =? 215))
  then ascii_of_nat (n + 32) else c.

Fixpoint lower (s : string) : string :=
  match s with
  | EmptyString => EmptyString
  | String c s' => String (lower_char c) (lower s')
  end.

Fixpoint lstrip (s : string) : string :=
  match s with
  | EmptyString => EmptyString
  | String c s' => if isspace c then lstrip s' else s
  end.

(** Strip on the right: a character is kept when something is kept after
    it or when it is not white space. *)
Fixpoint rstrip (s : string) : string :=
  match s with
  | EmptyString => EmptyString
  | String c s' =>
      match rstrip s' with
      | EmptyString => if isspace c then EmptyString else String c EmptyString
      | r => String c r
      end
  end.

Definition strip (s : string) : string := rstrip (lstrip s).

Definition startswith (s p : string) : bool := prefix p s.

(** The slice [s[n:]]. *)
Fixpoint slice_from (n : nat) (s : string) : string :=
  match n, s with
  | O, _ => s
  | S n', String _ s' => slice_from n' s'
  | S _, EmptyString => EmptyString
  end.

(** [s.replace(old, new)] for a non-empty [old]: left to right, occurrences
    that do not overlap.  [skip] counts the characters of an occurrence that
    are still to be passed over. *)
Fixpoint replace_from (old new : string) (skip : nat) (s : string) : string :=
  match s with
  | EmptyString => EmptyString
  | String c s' =>
      match skip with
      | S k => replace_from old new k s'
      | O =>
          if prefix old s
          then new +++ replace_from old new (String.length old - 1) s'
          else String c (replace_from old new 0 s')
      end
  end.

(** With an empty [old] Python puts [new] before every character and at the
    end. *)
Fixpoint intersperse (new s : string) : string :=
  match s with
  | EmptyString => new
  | String c s' => new +++ String c (intersperse new s')
  end.

Definition replace (s old new : string) : string :=
  match old with
  | EmptyString => intersperse new s
  | _ => replace_from old new 0 s
  end.

(** [sep.join(l)] *)
Definition join (sep : string) (l : list string) : string := String.concat sep l.

(** The last occurrence of a non-empty [sep] in [s]: the text before it and
    the text after it. *)
Fixpoint rpartition (sep s : string) : option (string * string) :=
  match s with
  | EmptyString => None
  | String c s' =>
      match rpartition sep s' with
      | Some (a, b) => Some (String c a, b)
      | None =>
          if prefix sep s then Some (EmptyString, slice_from (String.length sep) s)
          else None
      end
  end.

(** [s.rsplit(sep, 1)] *)
Definition rsplit1 (s sep : string) : list string :=
  match rpartition sep s with
  | Some (a, b) => [a; b]
  | None => [s]
  end.

(** [s.split(sep)] for a one-character separator. *)
Fixpoint split_char (sep : ascii) (s : string) : list string :=
  match s with
  | EmptyString => [EmptyString]
  | String c s' =>
      if Ascii.eqb c sep then EmptyString :: split_char sep s'
      else
        match split_char sep s' with
        | w :: ws => String c w :: ws
        | [] => [String c EmptyString]
        end
  end.

(** The f-string [f"'{s}'"]. *)
Definition quoted (s : string) : string := "'" +++ s +++ "'".

End PyStr.

(* ===================================================================== *)
(** ** The pandas primitives that the source calls *)
(* ===================================================================== *)

Module Pandas.
Import PyStr.

(** What one cell of a table can hold: a [str], a finite number, an
    infinity, the float [nan] (a missing value), a [bool], a [datetime.date]
    (also used for a timestamp at midnight) and [NaT]. *)
Inductive cell : Type :=
  | Str (s : string)
  | Num (q : Q)
  | Inf (negative : bool)
  | NaN
  | Bool (b : bool)
  | Date (year month day : nat)
  | NaT.

(** int64 and float64 are not told apart: both are [float64] here. *)
Inductive Dtype : Type :=
  | object_
  | float64
  | bool_
  | datetime64.

Record Series : Type := mkSeries { dtype : Dtype; values : list cell }.

(** A frame is its columns in order, each a label and a Series.  Labels may
    repeat.  The row index is the default [RangeIndex]: a row's label is its
    position. *)
Definition DataFrame : Type := list (string * Series).

Definition columns (df : DataFrame) : list string := map fst df.

Definition nrows (df : DataFrame) : nat :=
  match df with
  | [] => 0
  | (_, s) :: _ => List.length (values s)
  end.

(** What [df[c]] evaluates to: a Series when one column bears the label, a
    frame when several do. *)
Inductive item : Type :=
  | ASeries (s : Series)
  | AFrame (df : DataFrame).

(** *** Numbers in text: [xstrtod] and [floatify] *)

Definition isspace_ascii (c : ascii) : bool :=
  let n := code c in (n =? 32) || in_range 9 13 n.

Fixpoint skip_spaces (s : string) : string :=
  match s with
  | EmptyString => EmptyString
  | String c s' => if isspace_ascii c then skip_spaces s' else s
  end.

Definition take_sign (s : string) : bool * string :=
  match s with
  | String "-" s' => (true, s')
  | String "+" s' => (false, s')
  | _ => (false, s)
  end.

(** Read decimal digits into [acc], counting them. *)
Fixpoint take_digits (acc : Z) (count : nat) (s : string) : Z * nat * string :=
  match s with
  | EmptyString => (acc, count, s)
  | String c s' =>
      if isdigit c
      then take_digits (10 * acc + Z.of_nat (code c - 48))%Z (S count) s'
      else (acc, count, s)
  end.

(** [(-1)^negative * mantissa * 10^exponent], in lowest terms. *)
Definition decimal_value (negative : bool) (mantissa exponent : Z) : Q :=
  let m := if negative then (- mantissa)%Z else mantissa in
  Qred (if (0 <=? exponent)%Z
        then inject_Z (m * 10 ^ exponent)
        else Qmake m (Z.to_pos (10 ^ (- exponent)))).

Definition is_exponent_mark (c : ascii) : bool :=
  Ascii.eqb c "e" || Ascii.eqb c "E".

(** [xstrtod] with '.' as the decimal point, 'e' as the exponent mark, no
    thousands separator and trailing white space skipped; the caller
    accepts the result when the whole text was consumed.  [None] is the
    parse error. *)
Definition xstrtod (s : string) : option Q :=
  let s := skip_spaces s in
  let '(negative, s) := take_sign s in
  let '(number, num_digits, s) := take_digits 0 0 s in
  let '(number, num_decimals, s) :=
    match s with
    | String "." s' => take_digits number 0 s'
    | _ => (number, 0, s)
    end in
  if num_digits + num_decimals =? 0 then None
  else
    let '(exponent, s) :=
      match s with
      | String c s1 =>
          if is_exponent_mark c then
            let '(eneg, s2) := take_sign s1 in
            let '(n, k, s3) := take_digits 0 0 s2 in
            if k =? 0 then (0%Z, s)
            else ((if eneg then - n else n)%Z, s3)
          else (0%Z, s)
      | EmptyString => (0%Z, s)
      end in
    match skip_spaces s with
    | EmptyString =>
        Some (decimal_value negative number (exponent - Z.of_nat num_decimals))
    | _ => None
    end.

Definition mem (s : string) (l : list string) : bool :=
  existsb (String.eqb s) l.

(** The spellings of the infinities, compared without case. *)
Definition infinity_of (s : string) : option cell :=
  let l := lower s in
  if mem l ["inf"; "+inf"; "infinity"; "+infinity"] then Some (Inf false)
  else if mem l ["-inf"; "-infinity"] then Some (Inf true)
  else None.

(** [floatify]: one [str] to a float, as [pd.to_numeric] does for the
    elements of an object array.  The empty text is a missing value. *)
Definition to_numeric_str (s : string) : option cell :=
  match s with
  | EmptyString => Some NaN
  | _ =>
      match infinity_of s with
      | Some v => Some v
      | None =>
          if mem (lower s) ["nan"; "+nan"; "-nan"] then Some NaN
          else option_map Num (xstrtod s)
      end
  end.

(** [pd.to_numeric(arg, errors="raise")] on one element of an object
    array. *)
Definition to_numeric_cell (v : cell) : result cell :=
  match v with
  | Str s =>
      match to_numeric_str s with
      | Some x => Ok x
      | None => Raise (ValueError to_numeric_fn)
      end
  | Num _ | Inf _ | NaN => Ok v
  | Bool b => Ok (Num (if b then 1 else 0)%Q)
  | Date _ _ _ | NaT => Raise TypeError
  end.

(** [pd.to_numeric(arg, errors="raise")] for the values of an object-dtype
    Series, the only argument the source passes. *)
Definition to_numeric (arg : list cell) : result Series :=
  vs <- mapM to_numeric_cell arg ;; Ok (mkSeries float64 vs).

(** *** [pd.read_csv] with its defaults *)

(** The file after tokenising: the column labels pandas gives the frame and,
    for every data line, its fields as text.  Quoting, the delimiter and the
    renaming of repeated header names are the tokeniser's and are not
    modelled. *)
Record csv : Type := mkCsv { header : list string; rows : list (list string) }.

(** The texts that [read_csv] reads as a missing value. *)
Definition STR_NA_VALUES : list string :=
  [""; "#N/A"; "#N/A N/A"; "#NA"; "-1.#IND"; "-1.#QNAN"; "-NaN"; "-nan";
   "1.#IND"; "1.#QNAN"; "<NA>"; "N/A"; "NA"; "NULL"; "NaN"; "None"; "n/a";
   "nan"; "null"].

Definition is_na (f : string) : bool := mem f STR_NA_VALUES.

Definition csv_number (f : string) : option cell :=
  match infinity_of f with
  | Some v => Some v
  | None => option_map Num (xstrtod f)
  end.

Definition csv_bool (f : string) : option cell :=
  if mem f ["True"; "TRUE"; "true"] then Some (Bool true)
  else if mem f ["False"; "FALSE"; "false"] then Some (Bool false)
  else None.

Definition is_some {A : Type} (o : option A) : bool :=
  match o with Some _ => true | None => false end.

Definition read_as (conv : string -> option cell) (f : string) : cell :=
  if is_na f then NaN
  else match conv f with Some v => v | None => Str f end.

(** Type inference for one column: no line gives an empty object column; a
    column whose present fields are all numbers is numeric; one whose
    present fields are all booleans is boolean; any other column keeps its
    text. *)
Definition infer_column (fields : list string) : Series :=
  match fields with
  | [] => mkSeries object_ []
  | _ =>
      if forallb (fun f => is_na f || is_some (csv_number f)) fields
      then mkSeries float64 (map (read_as csv_number) fields)
      else if forallb (fun f => is_na f || is_some (csv_bool f)) fields
      then mkSeries bool_ (map (read_as csv_bool) fields)
      else mkSeries object_ (map (read_as (fun _ => None)) fields)
  end.

(** Column [j] of the lines; a line that is too short is padded with
    missing values. *)
Definition field_column (j : nat) (lines : list (list string)) : list string :=
  map (fun line => nth j line "") lines.

Fixpoint read_columns (j : nat) (names : list string)
    (lines : list (list string)) : DataFrame :=
  match names with
  | [] => []
  | c :: names' =>
      (c, infer_column (field_column j lines)) :: read_columns (S j) names' lines
  end.

Definition read_csv (path : csv) : DataFrame :=
  read_columns 0 (header path) (rows path).

(** *** Frames *)

(** [df.columns = labels] *)
Definition set_columns (df : DataFrame) (labels : list string) : DataFrame :=
  combine labels (map snd df).

Definition labelled (c : string) (col : string * Series) : bool :=
  String.eqb (fst col) c.

(** [df.loc[:, labels]]: the columns bearing each label in turn, every one
    of them when a label repeats in the frame; [KeyError] when a label is
    not in the frame. *)
Fixpoint loc_columns (df : DataFrame) (labels : list string) : result DataFrame :=
  match labels with
  | [] => Ok []
  | c :: labels' =>
      match filter (labelled c) df with
      | [] => Raise KeyError
      | cols => rest <- loc_columns df labels' ;; Ok (cols ++ rest)
      end
  end.

Fixpoint lookup (mapping : list (string * string)) (c : string) : string :=
  match mapping with
  | [] => c
  | (k, v) :: mapping' => if String.eqb k c then v else lookup mapping' c
  end.

(** [df.rename(columns=mapping)] *)
Definition rename (df : DataFrame) (mapping : list (string * string)) : DataFrame :=
  map (fun col => (lookup mapping (fst col), snd col)) df.

(** A Python index into a sequence of [n] elements: negative indices count
    from the end. *)
Definition py_index (n : nat) (i : Z) : option nat :=
  if ((0 <=? i) && (i <? Z.of_nat n))%Z then Some (Z.to_nat i)
  else if ((- Z.of_nat n <=? i) && (i <? 0))%Z then Some (Z.to_nat (Z.of_nat n + i))
  else None.

(** [df.iat[i, j]] *)
Definition iat (df : DataFrame) (i j : Z) : result cell :=
  match py_index (List.length df) j with
  | None => Raise IndexError
  | Some j' =>
      match nth_error df j' with
      | None => Raise IndexError
      | Some (_, s) =>
          match py_index (List.length (values s)) i with
          | None => Raise IndexError
          | Some i' =>
              match nth_error (values s) i' with
              | Some v => Ok v
              | None => Raise IndexError
              end
          end
      end
  end.

(** [df.index[i]] *)
Definition index_at (df : DataFrame) (i : Z) : result nat :=
  match py_index (nrows df) i with
  | Some k => Ok k
  | None => Raise IndexError
  end.

Definition remove_at {A : Type} (k : nat) (l : list A) : list A :=
  firstn k l ++ skipn (S k) l.

(** [df.drop(label, inplace=True)]: the row with that index label goes,
    [KeyError] when there is none. *)
Definition drop (df : DataFrame) (label : nat) : result DataFrame :=
  if label <? nrows df
  then Ok (map (fun col => (fst col, mkSeries (dtype (snd col))
                                      (remove_at label (values (snd col))))) df)
  else Raise KeyError.

(** [df[c]] *)
Definition getitem (df : DataFrame) (c : string) : result item :=
  match filter (labelled c) df with
  | [] => Raise KeyError
  | [(_, s)] => Ok (ASeries s)
  | cols => Ok (AFrame cols)
  end.

(** [df[c] = s]: the column labelled [c] is replaced, or [s] becomes a new
    last column. *)
Definition setitem (df : DataFrame) (c : string) (s : Series) : DataFrame :=
  if existsb (labelled c) df
  then map (fun col => if labelled c col then (fst col, s) else col) df
  else df ++ [(c, s)].

(** [x.str.replace(pat, repl)] for a literal [pat].  The accessor [.str]
    exists on a Series of text only: a frame has none, and on a numeric or
    boolean Series it raises [AttributeError].  Elements that are not text
    come out as missing values. *)
Definition str_replace (x : item) (pat repl : string) : result (list cell) :=
  match x with
  | AFrame _ => Raise AttributeError
  | ASeries s =>
      match dtype s with
      | object_ =>
          Ok (map (fun v => match v with
                            | Str t => Str (replace t pat repl)
                            | _ => NaN
                            end) (values s))
      | _ => Raise AttributeError
      end
  end.

(** [v.lower()] on what [iat] returned: only a [str] has the method. *)
Definition str_lower (v : cell) : result string :=
  match v with
  | Str s => Ok (lower s)
  | _ => Raise AttributeError
  end.

(** *** Dates: [pd.to_datetime] with [format="%d/%m/%Y"] *)

Definition digit (c : ascii) : nat := code c - 48.

Definition is_1_9 (c : ascii) : bool := in_range 49 57 (code c).

(** [%d]: the pattern [3[0-1]|[1-2]\d|0[1-9]|[1-9]| [1-9]]. *)
Definition day_token (t : string) : option nat :=
  match t with
  | String a EmptyString => if is_1_9 a then Some (digit a) else None
  | String a (String b EmptyString) =>
      if Ascii.eqb a "3" && in_range 48 49 (code b) then Some (30 + digit b)
      else if in_range 49 50 (code a) && isdigit b then Some (10 * digit a + digit b)
      else if (Ascii.eqb a "0" || Ascii.eqb a " ") && is_1_9 b then Some (digit b)
      else None
  | _ => None
  end.

(** [%m]: the pattern [1[0-2]|0[1-9]|[1-9]]. *)
Definition month_token (t : string) : option nat :=
  match t with
  | String a EmptyString => if is_1_9 a then Some (digit a) else None
  | String a (String b EmptyString) =>
      if Ascii.eqb a "1" && in_range 48 50 (code b) then Some (10 + digit b)
      else if Ascii.eqb a "0" && is_1_9 b then Some (digit b)
      else None
  | _ => None
  end.

(** [%Y]: four digits. *)
Definition year_token (t : string) : option nat :=
  match t with
  | String a (String b (String c (String d EmptyString))) =>
      if isdigit a && isdigit b && isdigit c && isdigit d
      then Some (1000 * digit a + 100 * digit b + 10 * digit c + digit d)
      else None
  | _ => None
  end.

Definition is_leap (y : nat) : bool :=
  ((y mod 4 =? 0) && negb (y mod 100 =? 0)) || (y mod 400 =? 0).

Definition days_in_month (y m : nat) : nat :=
  match m with
  | 2 => if is_leap y then 29 else 28
  | 4 | 6 | 9 | 11 => 30
  | _ => 31
  end.

(** [datetime.date(y, m, d)] exists. *)
Definition valid_date (y m d : nat) : bool :=
  (1 <=? y) && in_range 1 12 m && in_range 1 (days_in_month y m) d.

Definition date_leb (a b : nat * nat * nat) : bool :=
  let '(y1, m1, d1) := a in
  let '(y2, m2, d2) := b in
  (y1 <? y2) || ((y1 =? y2) && ((m1 <? m2) || ((m1 =? m2) && (d1 <=? d2)))).

(** Midnight of the day is a nanosecond timestamp: from 1677-09-22 to
    2262-04-11. *)
Definition in_bounds (y m d : nat) : bool :=
  date_leb (1677, 9, 22) (y, m, d) && date_leb (y, m, d) (2262, 4, 11).

(** One text against [%d/%m/%Y], the whole of it ([exact=True]). *)
Definition strptime (s : string) : option cell :=
  match split_char "/" s with
  | [d; m; y] =>
      match day_token d, month_token m, year_token y with
      | Some dd, Some mm, Some yy =>
          if valid_date yy mm dd && in_bounds yy mm dd
          then Some (Date yy mm dd) else None
      | _, _, _ => None
      end
  | _ => None
  end.

Definition nat_strings : list string :=
  ["NaT"; "nat"; "NAT"; "nan"; "NaN"; "NAN"].

(** One element: the empty text, the [NaT] spellings and missing values
    give [NaT]; other text is matched against the format; a number or a
    boolean is first printed, and its print never matches. *)
Definition to_datetime_cell (v : cell) : result cell :=
  match v with
  | Str s =>
      if String.eqb s "" || mem s nat_strings then Ok NaT
      else match strptime s with
           | Some d => Ok d
           | None => Raise (ValueError to_datetime_fn)
           end
  | NaN | NaT => Ok NaT
  | Date y m d => Ok v
  | Num _ | Inf _ | Bool _ => Raise (ValueError to_datetime_fn)
  end.

(** [pd.to_datetime(arg, format="%d/%m/%Y", errors="raise")].  A frame is
    assembled from columns named year, month and day; the frames [read_midata]
    can pass have none of them. *)
Definition to_datetime (arg : item) : result Series :=
  match arg with
  | AFrame _ => Raise (ValueError to_datetime_fn)
  | ASeries s =>
      vs <- mapM to_datetime_cell (values s) ;; Ok (mkSeries datetime64 vs)
  end.

(** [s.dt.date]: an object Series of [datetime.date]. *)
Definition dt_date (s : Series) : Series := mkSeries object_ (values s).

End Pandas.

(* ===================================================================== *)
(** ** [banalysis/inputs.py] *)
(* ===================================================================== *)

Module Inputs.
Import PyStr Pandas.

(** The body of a [for] loop run over a list, threading the frame. *)
Fixpoint for_each (cs : list string)
    (body : DataFrame -> string -> result DataFrame) (df : DataFrame)
    : result DataFrame :=
  match cs with
  | [] => Ok df
  | c :: cs' => df' <- body df c ;; for_each cs' body df'
  end.

(** [_check_midata_columns]: normalise the labels, fail on a missing
    required column with the list of the missing ones, keep the required
    columns and rename two of them. *)
Definition _check_midata_columns (df : DataFrame) : result DataFrame :=
  let df := set_columns df (map (fun c => lower (strip c)) (Pandas.columns df)) in
  let columns := ["date"; "type"; "merchant/description"; "debit/credit"; "balance"] in
  let missing := filter (fun c => negb (mem c (Pandas.columns df))) columns in
  match missing with
  | _ :: _ =>
      let msg := join ", " (map quoted missing) in
      let msg := join " and" (rsplit1 msg ",") in
      Raise (MidataCSVError
               ("the following columns are missing from midata CSV: " +++ msg))
  | [] =>
      df <- loc_columns df columns ;;
      let rename_ := [("merchant/description", "description");
                      ("debit/credit", "amount")] in
      Ok (rename df rename_)
  end.

(** The body of the loop over ["amount"] and ["balance"]:
    [df[c] = pd.to_numeric(df[c].str.replace(pound, ""), errors="raise")]. *)
Definition to_pounds (df : DataFrame) (c : string) : result DataFrame :=
  x <- getitem df c ;;
  t <- str_replace x pound "" ;;
  s <- to_numeric t ;;
  Ok (setitem df c s).

(** [read_midata]; [path] stands for the file already tokenised. *)
Definition read_midata (path : csv) : result DataFrame :=
  let df := read_csv path in
  df <- _check_midata_columns df ;;
  v <- iat df (-1) 0 ;;
  s <- str_lower v ;;
  df <- (if startswith s "arranged"
         then label <- index_at df (-1) ;; drop df label
         else Ok df) ;;
  df <- for_each ["amount"; "balance"] to_pounds df ;;
  x <- getitem df "date" ;;
  t <- to_datetime x ;;
  Ok (setitem df "date" (dt_date t)).

End Inputs.

(* ===================================================================== *)
(** ** [banalysis/dashboard.py]: the update handler *)
(* ===================================================================== *)

Module Dashboard.
Import PyStr Pandas Inputs.

(** The part of the dashboard that the handler writes: the data of the
    [ColumnDataSource] bound to the table and the plot, and the bounds of
    the two ranges of the plot. *)
Record Dashboard : Type := mkDashboard {
  source_data : DataFrame;
  x_range : cell * cell;
  y_range : Z * Z
}.

(** Python's [a < b].  The date column of a parsed table holds dates and
    [NaT]; comparing [NaT] with a [datetime.date] is a [TypeError] (pandas 2;
    earlier versions answer [False] with a warning). *)
Definition py_lt (a b : cell) : result bool :=
  match a, b with
  | Date y1 m1 d1, Date y2 m2 d2 =>
      Ok (date_leb (y1, m1, d1) (y2, m2, d2) && negb (date_leb (y2, m2, d2) (y1, m1, d1)))
  | Num p, Num q => Ok (negb (Qle_bool q p))
  | Str s, Str t => Ok (String.ltb s t)
  | _, _ => Raise TypeError
  end.

Fixpoint py_min_from (m : cell) (l : list cell) : result cell :=
  match l with
  | [] => Ok m
  | x :: l' => b <- py_lt x m ;; py_min_from (if b then x else m) l'
  end.

Fixpoint py_max_from (m : cell) (l : list cell) : result cell :=
  match l with
  | [] => Ok m
  | x :: l' => b <- py_lt m x ;; py_max_from (if b then x else m) l'
  end.

(** What iterating over [df.date] yields: the values of a Series, the
    labels of a frame. *)
Definition iterate (x : item) : list cell :=
  match x with
  | ASeries s => values s
  | AFrame df => map Str (Pandas.columns df)
  end.

(** The built-ins [min] and [max]: [ValueError] on an empty sequence. *)
Definition py_min (l : list cell) : result cell :=
  match l with
  | [] => Raise ValueError_builtin
  | x :: l' => py_min_from x l'
  end.

Definition py_max (l : list cell) : result cell :=
  match l with
  | [] => Raise ValueError_builtin
  | x :: l' => py_max_from x l'
  end.

(** [np.max] of the values of numeric columns: [nan] when one of them is
    [nan], [ValueError] when there is none. *)
Definition is_float (v : cell) : bool :=
  match v with
  | Num _ | Inf _ | NaN => true
  | _ => false
  end.

Definition float_le (a b : cell) : bool :=
  match a, b with
  | Inf true, _ => true
  | _, Inf false => true
  | Num p, Num q => Qle_bool p q
  | _, _ => false
  end.

Definition np_greater (a b : cell) : result cell :=
  if is_float a && is_float b then
    Ok (match a, b with
        | NaN, _ | _, NaN => NaN
        | _, _ => if float_le a b then b else a
        end)
  else Raise TypeError.

Fixpoint np_max_from (m : cell) (l : list cell) : result cell :=
  match l with
  | [] => Ok m
  | x :: l' => m' <- np_greater m x ;; np_max_from m' l'
  end.

Definition np_max (l : list cell) : result cell :=
  match l with
  | [] => Raise ValueError_builtin
  | x :: l' => if is_float x then np_max_from x l' else Raise TypeError
  end.

(** [math.ceil(x / 1000) * 1000] *)
Definition ceil_1000 (x : cell) : result Z :=
  match x with
  | Num q => Ok (Qceiling (q / 1000)%Q * 1000)%Z
  | NaN => Raise ValueError_builtin
  | Inf _ => Raise OverflowError
  | _ => Raise TypeError
  end.

(** [Dashboard._update_source].  [new] stands for the uploaded file after
    base64 decoding and tokenising.  The result is the dashboard as the
    handler leaves it and how the handler ended: assignments made before an
    exception stay. *)
Definition _update_source (self : Dashboard) (new : csv) : Dashboard * result unit :=
  match read_midata new with
  | Raise e => (self, Raise e)
  | Ok df =>
      let self := mkDashboard df (x_range self) (y_range self) in
      match (d <- getitem df "date" ;;
             lo <- py_min (iterate d) ;;
             hi <- py_max (iterate d) ;;
             Ok (lo, hi)) with
      | Raise e => (self, Raise e)
      | Ok bounds =>
          let self := mkDashboard (source_data self) bounds (y_range self) in
          match (sub <- loc_columns df ["balance"; "abs_amount"] ;;
                 m <- np_max (flat_map (fun col => values (snd col)) sub) ;;
                 ceil_1000 m) with
          | Raise e => (self, Raise e)
          | Ok max_amount =>
              (mkDashboard (source_data self) (x_range self) (0%Z, max_amount),
               Ok tt)
          end
      end
  end.

End Dashboard.

(* ===================================================================== *)
(** ** Vocabulary of the specification *)
(* ===================================================================== *)

Module Spec.
Import PyStr Pandas Inputs.

(** The five required columns and their canonical names. *)
Definition required : list string :=
  ["date"; "type"; "merchant/description"; "debit/credit"; "balance"].

Definition canonical : list string :=
  ["date"; "type"; "description"; "amount"; "balance"].

(** A header name after trimming white space and lowercasing. *)
Definition normalise (c : string) : string := lower (strip c).

Definition normalised_header (path : csv) : list string :=
  map normalise (header path).

(** The frame as read, under its normalised labels. *)
Definition normalised (df : DataFrame) : DataFrame :=
  map (fun col => (normalise (fst col), snd col)) df.

(** Every column of a frame has [n] values. *)
Definition rect (n : nat) (df : DataFrame) : Prop :=
  Forall (fun col => List.length (values (snd col)) = n) df.

(** What [df.loc[:, labels]] returns when it returns. *)
Definition located (df : DataFrame) (labels : list string) : DataFrame :=
  flat_map (fun c => filter (labelled c) df) labels.

(** The required columns that are absent after normalisation. *)
Definition missing_columns (path : csv) : list string :=
  filter (fun c => negb (mem c (normalised_header path))) required.

(** A list of names in words: commas between the names, and the word "and"
    with no comma in place of the last separator. *)
Fixpoint human_join (l : list string) : string :=
  match l with
  | [] => ""
  | [a] => a
  | [a; b] => a +++ " and " +++ b
  | a :: l' => a +++ ", " +++ human_join l'
  end.

(** The renaming of the two columns, and the frame that the column check
    returns when it returns. *)
Definition rename_map : list (string * string) :=
  [("merchant/description", "description"); ("debit/credit", "amount")].

Definition checked (df : DataFrame) : DataFrame :=
  rename (located (normalised df) required) rename_map.

(** The message of [MidataCSVError] in the words of the specification. *)
Definition missing_message (missing : list string) : string :=
  "the following columns are missing from midata CSV: "
  +++ human_join (map quoted missing).

(** The column of the input whose normalised name is [c] (the first one,
    should there be several). *)
Definition select (path : csv) (c : string) : Series :=
  match filter (labelled c) (normalised (read_csv path)) with
  | col :: _ => snd col
  | [] => mkSeries object_ []
  end.



(** The text of the field of the last line under the column whose
    normalised name is [c]. *)
Fixpoint position (c : string) (names : list string) : nat :=
  match names with
  | [] => 0
  | n :: names' => if String.eqb n c then 0 else S (position c names')
  end.

Definition last_field (path : csv) (c : string) : string :=
  nth (position c (normalised_header path)) (last (rows path) []) "".

(** A value with every pound sign taken out; what is not text becomes a
    missing value. *)
Definition unpound (v : cell) : cell :=
  match v with
  | Str t => Str (replace t pound "")
  | _ => NaN
  end.

(** What parsing does to one value of the column labelled [c]. *)
Definition convert_cell (c : string) (v : cell) : result cell :=
  if mem c ["amount"; "balance"] then to_numeric_cell (unpound v)
  else if String.eqb c "date" then to_datetime_cell v
  else Ok v.

(** Column [cout] is column [cin] parsed: the same label, and value for
    value, in order, the conversion. *)
Definition converted (cin cout : string * Series) : Prop :=
  fst cout = fst cin /\
  Forall2 (fun v v' => convert_cell (fst cin) v = Ok v')
          (values (snd cin)) (values (snd cout)).

(** One step of the loop, column for column: the column labelled [c] is
    replaced by its conversion, the others stay. *)
Definition stepped (conv : cell -> result cell) (c : string)
    (cin cout : string * Series) : Prop :=
  fst cout = fst cin /\
  if labelled c cin
  then Forall2 (fun v v' => conv v = Ok v') (values (snd cin)) (values (snd cout))
  else snd cout = snd cin.

(** A frame without the last row. *)
Definition drop_last (df : DataFrame) : DataFrame :=
  map (fun col => (fst col, mkSeries (dtype (snd col))
                               (removelast (values (snd col))))) df.

(** The last value of a column, [NaN] standing for none. *)
Definition last_value (s : Series) : cell := last (values s) NaN.

(** The rows that parsing keeps, given the text of the last date field. *)
Definition kept {A : Type} (s : string) (l : list A) : list A :=
  if startswith (lower s) "arranged" then removelast l else l.

Definition kept_frame (s : string) (df : DataFrame) : DataFrame :=
  if startswith (lower s) "arranged" then drop_last df else df.

(** The last statements of [read_midata], from the loop on: the
    conversions, applied to the frame of the rows that are kept. *)
Definition conversions (df : DataFrame) : result DataFrame :=
  df <- for_each ["amount"; "balance"] to_pounds df ;;
  x <- getitem df "date" ;;
  t <- to_datetime x ;;
  Ok (setitem df "date" (dt_date t)).

(** A frame of the five canonical columns. *)
Definition five (sd st sm sa sb : Series) : DataFrame :=
  [("date", sd); ("type", st); ("description", sm); ("amount", sa); ("balance", sb)].

(** A column restricted to the rows that are kept. *)
Definition kept_series (s : string) (x : Series) : Series :=
  mkSeries (dtype x) (kept s (values x)).

(** The rows of a frame: the records, in order. *)
Definition records (df : DataFrame) : list (list cell) :=
  map (fun i => map (fun col => nth i (values (snd col)) NaN) df)
      (seq 0 (nrows df)).











(** A string without its pound signs. *)
Fixpoint without_pounds (s : string) : string :=
  match s with
  | EmptyString => EmptyString
  | String c s' =>
      if Ascii.eqb c pound_char then without_pounds s'
      else String c (without_pounds s')
  end.

Fixpoint has_pound (s : string) : bool :=
  match s with
  | EmptyString => false
  | String c s' => Ascii.eqb c pound_char || has_pound s'
  end.






End Spec.

(* ===================================================================== *)
(** ** The inputs of the examples *)
(* ===================================================================== *)

Module Examples.
Import PyStr Pandas Inputs Dashboard.

Definition midata_header : list string :=
  ["Date"; "Type"; "Merchant/Description"; "Debit/Credit"; "Balance"].

(** The end-to-end scenario of the specification: the overdraft text is in
    the type field of the last row. *)
Definition scenario : csv :=
  mkCsv ["date"; "type"; "merchant/description"; "debit/credit"; "balance"]
    [["01/01/2023"; "Payment"; "Shop"; "-" +++ pound +++ "20.00"; pound +++ "980.00"];
     ["02/01/2023"; "Arranged Overdraft Limit"; ""; ""; pound +++ "0.00"]].

(** A statement as banks export it: the last line starts with the
    overdraft text and is shorter than the others. *)
Definition statement : csv :=
  mkCsv midata_header
    [["01/01/2023"; "Payment"; "Shop"; "-" +++ pound +++ "20.00"; pound +++ "980.00"];
     ["Arranged overdraft limit"; "02/01/2023"; "+" +++ pound +++ "500.00"]].

Definition one_row (date amount balance : string) : csv :=
  mkCsv midata_header [[date; "Payment"; "Shop"; amount; balance]].

(** Header only. *)
Definition no_rows : csv := mkCsv midata_header [].

(** An extra column whose name normalises to a required one. *)
Definition extra_type : csv :=
  mkCsv (midata_header ++ [" TYPE "])
    [["01/01/2023"; "Payment"; "Shop"; "-" +++ pound +++ "20.00"; pound +++ "980.00"; "x"]].




Definition inner_pounds : csv :=
  one_row "01/01/2023" ("12" +++ pound +++ "3.45") (pound +++ pound +++ "123.45").

Definition three_amounts : csv :=
  mkCsv midata_header
    [["31/12/2023"; "Payment"; "Shop"; pound +++ "123.45"; pound +++ "0.00"];
     ["31/12/2023"; "Payment"; "Shop"; "-" +++ pound +++ "50.00"; pound +++ "0.00"];
     ["31/12/2023"; "Payment"; "Shop"; pound +++ "0.00"; pound +++ "0.00"]].


Definition missing_three : csv := mkCsv [" Date"; "TYPE "; "notes"] [].

(** A dashboard before an upload: no data, some bounds for the dates and
    the bounds 0 and 10000 for the values. *)
Definition some_dashboard : Dashboard :=
  mkDashboard [] (Num 0, Num 0) (0%Z, 10000%Z).

Definition text (l : list cell) : Series := mkSeries object_ l.
Definition numbers (l : list cell) : Series := mkSeries float64 l.

(** What [read_midata] returns on [scenario]: both rows. *)
Definition scenario_out : DataFrame :=
  [("date", text [Date 2023 1 1; Date 2023 1 2]);
   ("type", text [Str "Payment"; Str "Arranged Overdraft Limit"]);
   ("description", text [Str "Shop"; NaN]);
   ("amount", numbers [Num (inject_Z (-20)); NaN]);
   ("balance", numbers [Num (inject_Z 980); Num (inject_Z 0)])].

(** What [read_midata] returns on [statement]: the first row. *)
Definition statement_out : DataFrame :=
  [("date", text [Date 2023 1 1]);
   ("type", text [Str "Payment"]);
   ("description", text [Str "Shop"]);
   ("amount", numbers [Num (inject_Z (-20))]);
   ("balance", numbers [Num (inject_Z 980)])].

(** 123.45 *)
Definition q_123_45 : Q := Qmake 2469 20.

End Examples.

(* ===================================================================== *)
(** ** [banalysis/errors.py]: the classes of the exceptions *)
(* ===================================================================== *)

Module Errors.

(** The two classes of [errors.py] and the built-in classes above the
    exceptions that the parser and the handler can raise. *)
Inductive class : Type :=
  | Exception
  | LookupError
  | ArithmeticError
  | IndexError_class
  | KeyError_class
  | AttributeError_class
  | TypeError_class
  | ValueError_class
  | OverflowError_class
  | BaseBanalysisException
  | MidataCSVError_class.

(** The base of a class: [class MidataCSVError(BaseBanalysisException)],
    [class BaseBanalysisException(Exception)]. *)
Definition base (c : class) : option class :=
  match c with
  | Exception => None
  | LookupError | ArithmeticError | AttributeError_class | TypeError_class
  | ValueError_class | BaseBanalysisException => Some Exception
  | IndexError_class | KeyError_class => Some LookupError
  | OverflowError_class => Some ArithmeticError
  | MidataCSVError_class => Some BaseBanalysisException
  end.

Definition tag (c : class) : nat :=
  match c with
  | Exception => 0
  | LookupError => 1
  | ArithmeticError => 2
  | IndexError_class => 3
  | KeyError_class => 4
  | AttributeError_class => 5
  | TypeError_class => 6
  | ValueError_class => 7
  | OverflowError_class => 8
  | BaseBanalysisException => 9
  | MidataCSVError_class => 10
  end.

(** [issubclass(c, d)], walking up the bases; no chain is longer than
    three. *)
Fixpoint issubclass_within (n : nat) (c d : class) : bool :=
  (tag c =? tag d) ||
  match n, base c with
  | S n', Some b => issubclass_within n' b d
  | _, _ => false
  end.

Definition issubclass (c d : class) : bool := issubclass_within 3 c d.

Definition class_of (e : exn) : class :=
  match e with
  | MidataCSVError _ => MidataCSVError_class
  | IndexError => IndexError_class
  | AttributeError => AttributeError_class
  | KeyError => KeyError_class
  | TypeError => TypeError_class
  | ValueError _ | ValueError_builtin => ValueError_class
  | OverflowError => OverflowError_class
  end.

(** [isinstance(e, d)]: what [except d:] catches. *)
Definition isinstance (e : exn) (d : class) : bool :=
  issubclass (class_of e) d.

End Errors.

(* ===================================================================== *)
(** ** Vocabulary of the further properties *)
(* ===================================================================== *)

Module Props.
Import PyStr Pandas Inputs Dashboard Spec.




(** A cell that [read_csv] can produce. *)
Definition raw_cell (v : cell) : bool :=
  match v with
  | Date _ _ _ | NaT => false
  | _ => true
  end.

(** A date cell of a parsed table: [NaT], or a day of the calendar within
    the range of the timestamps. *)
Definition sound_date (v : cell) : bool :=
  match v with
  | NaT => true
  | Date y m d => valid_date y m d && in_bounds y m d
  | _ => false
  end.



(** The fields of the input under the column whose normalised name is
    [c], line after line. *)
Definition raw_column (path : csv) (c : string) : list string :=
  field_column (position c (normalised_header path)) (rows path).


(** Only the overdraft line. *)
Definition overdraft_only : csv :=
  mkCsv Examples.midata_header
    [["Arranged overdraft limit"; "02/01/2023"; "x";
      "+" +++ pound +++ "500.00"; pound +++ "0.00"]].

(** A line without a date after a line of payment. *)
Definition no_last_date : csv :=
  mkCsv Examples.midata_header
    [["01/01/2023"; "Payment"; "Shop"; "-" +++ pound +++ "20.00"; pound +++ "980.00"];
     [""; "Payment"; "Shop"; "-" +++ pound +++ "20.00"; pound +++ "960.00"]].

(** An overdraft line that is not the last line. *)
Definition overdraft_first : csv :=
  mkCsv Examples.midata_header
    [["Arranged overdraft limit"; "02/01/2023"; "x";
      "+" +++ pound +++ "500.00"; pound +++ "0.00"];
     ["01/01/2023"; "Payment"; "Shop"; "-" +++ pound +++ "20.00"; pound +++ "980.00"]].



End Props.

(* ===================================================================== *)
(** ** The error monad *)
(* ===================================================================== *)

Section Monad.
Context {A B : Type}.

Lemma bind_ok (r : result A) (k : A -> result B) (b : B) :
  bind r k = Ok b -> exists a, r = Ok a /\ k a = Ok b.
Proof.
  destruct r as [a | e]; simpl; intros H; [ | discriminate ].
  exists a. split; [ reflexivity | exact H ].
Qed.

Lemma bind_raise (r : result A) (k : A -> result B) (e : exn) :
  bind r k = Raise e -> r = Raise e \/ exists a, r = Ok a /\ k a = Raise e.
Proof.
  destruct r as [a | e']; simpl; intros H.
  - right. exists a. split; [ reflexivity | exact H ].
  - left. injection H as ->. reflexivity.
Qed.

End Monad.

Section MapM.
Context {A B : Type}.

Lemma mapM_Forall2 (f : A -> result B) (l : list A) (l' : list B) :
  mapM f l = Ok l' <-> Forall2 (fun a b => f a = Ok b) l l'.
Proof.
  revert l'. induction l as [ | a l IH ]; intros l'; simpl.
  - split; intros H.
    + injection H as <-. constructor.
    + inversion H. reflexivity.
  - split; intros H.
    + destruct (f a) as [b | e] eqn:Hb; simpl in H; [ | discriminate ].
      destruct (mapM f l) as [bs | e] eqn:E; simpl in H; [ | discriminate ].
      injection H as <-. constructor; [ exact Hb | ].
      apply IH. reflexivity.
    + inversion H as [ | a' b l1 bs Hb Hbs ]; subst.
      rewrite Hb. simpl. apply IH in Hbs. rewrite Hbs. reflexivity.
Qed.



End MapM.

(* ===================================================================== *)
(** ** Lists *)
(* ===================================================================== *)

Section Lists.
Context {A : Type}.

Lemma remove_at_last (l : list A) :
  Pandas.remove_at (List.length l - 1) l = removelast l.
Proof.
  unfold Pandas.remove_at.
  destruct l as [ | a l ] using rev_ind.
  - reflexivity.
  - rewrite removelast_last, length_app.
    replace (List.length l + List.length [a] - 1) with (List.length l)
      by (simpl; lia).
    rewrite firstn_app, firstn_all, Nat.sub_diag.
    rewrite skipn_all2 by (rewrite length_app; simpl; lia).
    simpl. rewrite !app_nil_r. reflexivity.
Qed.

Lemma length_removelast (l : list A) :
  List.length (removelast l) = List.length l - 1.
Proof.
  destruct l as [ | a l ] using rev_ind.
  - reflexivity.
  - rewrite removelast_last, length_app. simpl. lia.
Qed.

Lemma nth_error_last (l : list A) (d : A) :
  l <> [] -> nth_error l (List.length l - 1) = Some (last l d).
Proof.
  intros Hne. destruct l as [ | a l ] using rev_ind; [ congruence | ].
  rewrite last_last, length_app. simpl.
  replace (List.length l + 1 - 1) with (List.length l + 0) by lia.
  rewrite nth_error_app2 by lia.
  replace (List.length l + 0 - List.length l) with 0 by lia. reflexivity.
Qed.

Lemma Forall2_map_r {B : Type} (R : A -> B -> Prop) (g : A -> B) (l : list A) :
  (forall a, In a l -> R a (g a)) -> Forall2 R l (map g l).
Proof.
  induction l as [ | a l IH ]; intros H; simpl; constructor.
  - apply H. left. reflexivity.
  - apply IH. intros a' Hin. apply H. right. exact Hin.
Qed.

Lemma Forall2_compose {B C : Type} (R : A -> B -> Prop) (S : B -> C -> Prop)
    (T : A -> C -> Prop) (l1 : list A) (l2 : list B) (l3 : list C) :
  (forall a b c, R a b -> S b c -> T a c) ->
  Forall2 R l1 l2 -> Forall2 S l2 l3 -> Forall2 T l1 l3.
Proof.
  intros H H12. revert l3. induction H12 as [ | a b l1 l2 Hab _ IH ]; intros l3 H23.
  - inversion H23. constructor.
  - inversion H23 as [ | ? c ? l3' Hbc H' ]; subst. constructor.
    + eapply H; eassumption.
    + apply IH. exact H'.
Qed.

Lemma Forall2_same (R : A -> A -> Prop) (l : list A) :
  (forall a, R a a) -> Forall2 R l l.
Proof. intros H. induction l; constructor; auto. Qed.

Lemma filter_none (p : A -> bool) (l : list A) :
  (forall a, In a l -> p a = false) -> filter p l = [].
Proof.
  induction l as [ | a l IH ]; intros H; simpl.
  - reflexivity.
  - rewrite (H a (or_introl eq_refl)). apply IH.
    intros a' Hin. apply H. right. exact Hin.
Qed.

Lemma filter_singleton (p : A -> bool) (l : list A) (a x : A) :
  filter p l = [a] -> In x l -> p x = true -> x = a.
Proof.
  intros Hf Hin Hp.
  assert (Hx : In x (filter p l)) by (apply filter_In; split; assumption).
  rewrite Hf in Hx. destruct Hx as [ <- | [] ]. reflexivity.
Qed.

End Lists.

(* ===================================================================== *)
(** ** Frames: reading, selecting, indexing, dropping *)
(* ===================================================================== *)

Section Frames.
Import PyStr Pandas Inputs Spec.

Lemma infer_column_length (fields : list string) :
  List.length (values (infer_column fields)) = List.length fields.
Proof.
  unfold infer_column. destruct fields as [ | f fields ]; [ reflexivity | ].
  repeat match goal with |- context [if ?b then _ else _] => destruct b end;
    simpl; rewrite length_map; reflexivity.
Qed.

Lemma read_columns_columns (j : nat) (names : list string) lines :
  columns (read_columns j names lines) = names.
Proof.
  revert j. induction names as [ | c names IH ]; intros j; simpl.
  - reflexivity.
  - unfold columns in IH. rewrite IH. reflexivity.
Qed.

Lemma read_columns_rect (j : nat) (names : list string) lines :
  rect (List.length lines) (read_columns j names lines).
Proof.
  revert j. induction names as [ | c names IH ]; intros j; simpl.
  - constructor.
  - constructor; [ | apply IH ].
    simpl. rewrite infer_column_length. unfold field_column.
    apply length_map.
Qed.

Lemma read_csv_rect (path : csv) :
  rect (List.length (rows path)) (read_csv path).
Proof. apply read_columns_rect. Qed.

Lemma read_csv_columns (path : csv) : columns (read_csv path) = header path.
Proof. apply read_columns_columns. Qed.

Lemma set_columns_map (f : string -> string) (df : DataFrame) :
  set_columns df (map f (columns df)) = map (fun col => (f (fst col), snd col)) df.
Proof.
  unfold set_columns, columns. induction df as [ | col df IH ]; simpl.
  - reflexivity.
  - rewrite IH. reflexivity.
Qed.

Lemma normalised_columns (df : DataFrame) :
  columns (normalised df) = map normalise (columns df).
Proof. unfold normalised, columns. rewrite !map_map. reflexivity. Qed.

Lemma normalised_rect (n : nat) (df : DataFrame) :
  rect n df -> rect n (normalised df).
Proof.
  unfold rect, normalised. intros H. apply Forall_map. simpl. exact H.
Qed.

Lemma labelled_eq (c : string) (col : string * Series) :
  labelled c col = true -> fst col = c.
Proof. unfold labelled. apply String.eqb_eq. Qed.

Lemma mem_In (s : string) (l : list string) : mem s l = true <-> In s l.
Proof.
  unfold mem. rewrite existsb_exists. split.
  - intros (x & Hin & Heq). apply String.eqb_eq in Heq. subst. exact Hin.
  - intros Hin. exists s. split; [ exact Hin | apply String.eqb_refl ].
Qed.

Lemma filter_labelled_nil (c : string) (df : DataFrame) :
  filter (labelled c) df = [] <-> mem c (columns df) = false.
Proof.
  unfold columns. induction df as [ | col df IH ]; simpl.
  - tauto.
  - unfold labelled at 1. rewrite (String.eqb_sym c (fst col)).
    destruct (String.eqb (fst col) c); simpl.
    + split; discriminate.
    + exact IH.
Qed.

Lemma loc_columns_ok (df : DataFrame) (labels : list string) (out : DataFrame) :
  loc_columns df labels = Ok out -> out = located df labels.
Proof.
  revert out. induction labels as [ | c labels IH ]; intros out; simpl.
  - intros H. injection H as <-. reflexivity.
  - destruct (filter (labelled c) df) as [ | col cols ] eqn:E; [ discriminate | ].
    destruct (loc_columns df labels) as [ rest | e ]; simpl; [ | discriminate ].
    intros H. injection H as <-. rewrite (IH rest eq_refl). reflexivity.
Qed.

Lemma loc_columns_total (df : DataFrame) (labels : list string) :
  (forall c, In c labels -> mem c (columns df) = true) ->
  loc_columns df labels = Ok (located df labels).
Proof.
  induction labels as [ | c labels IH ]; intros H; simpl.
  - reflexivity.
  - destruct (filter (labelled c) df) as [ | col cols ] eqn:E.
    + apply filter_labelled_nil in E.
      rewrite (H c (or_introl eq_refl)) in E. discriminate.
    + rewrite IH by (intros c' Hin; apply H; right; exact Hin).
      reflexivity.
Qed.

Lemma loc_columns_raise (df : DataFrame) (labels : list string) (e : exn) :
  loc_columns df labels = Raise e -> e = KeyError.
Proof.
  induction labels as [ | c labels IH ]; simpl.
  - discriminate.
  - destruct (filter (labelled c) df) as [ | col cols ].
    + intros H. injection H as <-. reflexivity.
    + destruct (loc_columns df labels) as [ rest | e' ]; simpl; [ discriminate | ].
      intros H. injection H as ->. apply IH. reflexivity.
Qed.

Lemma loc_columns_absent (df : DataFrame) (before : list string) (c : string) :
  mem c (columns df) = false ->
  loc_columns df (before ++ [c]) = Raise KeyError.
Proof.
  intros Habs. induction before as [ | b before IH ]; simpl.
  - apply filter_labelled_nil in Habs. rewrite Habs. reflexivity.
  - destruct (filter (labelled b) df); [ reflexivity | ].
    rewrite IH. reflexivity.
Qed.

Lemma located_rect (n : nat) (df : DataFrame) (labels : list string) :
  rect n df -> rect n (located df labels).
Proof.
  unfold rect, located. intros H. apply Forall_flat_map.
  apply Forall_forall. intros c _.
  apply Forall_forall. intros col Hin. apply filter_In in Hin.
  rewrite Forall_forall in H. apply H. tauto.
Qed.

Lemma located_labels (df : DataFrame) (labels : list string) :
  Forall (fun col => In (fst col) labels) (located df labels).
Proof.
  unfold located. apply Forall_flat_map.
  apply Forall_forall. intros c Hc.
  apply Forall_forall. intros col Hin. apply filter_In in Hin.
  destruct Hin as [_ Hl]. apply labelled_eq in Hl. rewrite Hl. exact Hc.
Qed.

Lemma rename_rect (n : nat) (df : DataFrame) mapping :
  rect n df -> rect n (rename df mapping).
Proof.
  unfold rect, rename. intros H. apply Forall_map. simpl. exact H.
Qed.

End Frames.

(* ===================================================================== *)
(** ** The column check *)
(* ===================================================================== *)

Section ColumnCheck.
Import PyStr Pandas Inputs Spec.

Lemma check_missing (df : DataFrame) :
  let missing :=
    filter (fun c => negb (mem c (columns (normalised df)))) required in
  missing <> [] ->
  _check_midata_columns df = Raise (MidataCSVError (missing_message missing)).
Proof.
  unfold _check_midata_columns. rewrite set_columns_map.
  change (map (fun col => (lower (strip (fst col)), snd col)) df)
    with (normalised df).
  generalize (columns (normalised df)). intros cols. unfold required.
  cbn [filter].
  generalize (mem "date" cols) (mem "type" cols)
             (mem "merchant/description" cols) (mem "debit/credit" cols)
             (mem "balance" cols).
  intros b1 b2 b3 b4 b5 Hne.
  destruct b1, b2, b3, b4, b5; cbn [negb] in *;
    first [ congruence | vm_compute; reflexivity ].
Qed.

Lemma check_total (df : DataFrame) :
  (forall c, In c required -> mem c (columns (normalised df)) = true) ->
  _check_midata_columns df = Ok (checked df).
Proof.
  intros H. unfold _check_midata_columns. rewrite set_columns_map.
  change (map (fun col => (lower (strip (fst col)), snd col)) df)
    with (normalised df).
  change ["date"; "type"; "merchant/description"; "debit/credit"; "balance"]
    with required.
  assert (Hf : filter (fun c => negb (mem c (columns (normalised df)))) required = []).
  { apply filter_none. intros c Hc. rewrite (H c Hc). reflexivity. }
  rewrite Hf. rewrite (loc_columns_total _ _ H). reflexivity.
Qed.

Lemma check_ok (df df1 : DataFrame) :
  _check_midata_columns df = Ok df1 ->
  (forall c, In c required -> mem c (columns (normalised df)) = true) /\
  df1 = checked df.
Proof.
  intros H.
  assert (Hall : forall c, In c required -> mem c (columns (normalised df)) = true).
  { intros c Hc.
    destruct (mem c (columns (normalised df))) eqn:E; [ reflexivity | ].
    assert (Hne : filter (fun c => negb (mem c (columns (normalised df)))) required <> []).
    { intros Hnil.
      assert (Hin : In c (filter (fun c => negb (mem c (columns (normalised df)))) required))
        by (apply filter_In; split; [ exact Hc | rewrite E; reflexivity ]).
      rewrite Hnil in Hin. destruct Hin. }
    rewrite (check_missing df Hne) in H. discriminate. }
  split; [ exact Hall | ].
  rewrite (check_total df Hall) in H. injection H as <-. reflexivity.
Qed.

Lemma check_raise (df : DataFrame) (e : exn) :
  _check_midata_columns df = Raise e ->
  e = MidataCSVError (missing_message
        (filter (fun c => negb (mem c (columns (normalised df)))) required)).
Proof.
  intros H.
  destruct (filter (fun c => negb (mem c (columns (normalised df)))) required)
    as [ | m ms ] eqn:E.
  - rewrite check_total in H; [ discriminate | ].
    intros c Hc. destruct (mem c (columns (normalised df))) eqn:Em; [ reflexivity | ].
    assert (Hin : In c (filter (fun c => negb (mem c (columns (normalised df)))) required))
      by (apply filter_In; split; [ exact Hc | rewrite Em; reflexivity ]).
    rewrite E in Hin. destruct Hin.
  - rewrite <- E. rewrite check_missing in H by (rewrite E; discriminate).
    injection H as <-. reflexivity.
Qed.

Lemma checked_rect (n : nat) (df : DataFrame) :
  rect n df -> rect n (checked df).
Proof.
  intros H. unfold checked. apply rename_rect, located_rect, normalised_rect, H.
Qed.

Lemma checked_labels (df : DataFrame) :
  Forall (fun col => In (fst col) canonical) (checked df).
Proof.
  unfold checked, rename. apply Forall_map.
  eapply Forall_impl; [ | apply located_labels ].
  intros col Hin. simpl in *.
  repeat (destruct Hin as [ <- | Hin ]; [ simpl; tauto | ]).
  destruct Hin.
Qed.

Lemma checked_head (df : DataFrame) :
  mem "date" (columns (normalised df)) = true ->
  exists sd rest,
    checked df = ("date", sd) :: rest /\ In ("date", sd) (normalised df).
Proof.
  intros H. unfold checked, located, required. cbn [flat_map].
  destruct (filter (labelled "date") (normalised df)) as [ | col cols ] eqn:E.
  - apply filter_labelled_nil in E. congruence.
  - assert (Hl : fst col = "date").
    { apply labelled_eq.
      assert (Hin : In col (filter (labelled "date") (normalised df)))
        by (rewrite E; left; reflexivity).
      apply filter_In in Hin. tauto. }
    assert (Hin : In col (normalised df)).
    { assert (Hin : In col (filter (labelled "date") (normalised df)))
        by (rewrite E; left; reflexivity).
      apply filter_In in Hin. tauto. }
    destruct col as [l sd]. simpl in Hl. subst l.
    simpl. eexists. eexists. split; [ reflexivity | exact Hin ].
Qed.

Lemma filter_labelled_length (c : string) (df : DataFrame) :
  List.length (filter (labelled c) df) = List.length (filter (String.eqb c) (columns df)).
Proof.
  unfold columns. induction df as [ | col df IH ]; simpl.
  - reflexivity.
  - unfold labelled at 1. rewrite (String.eqb_sym c (fst col)).
    destruct (String.eqb (fst col) c); simpl; rewrite IH; reflexivity.
Qed.





End ColumnCheck.

(* ===================================================================== *)
(** ** The steps of [read_midata] *)
(* ===================================================================== *)

Section Steps.
Import PyStr Pandas Inputs Spec.

(** [df.iat[-1, 0]] is the last value of the first column. *)
Lemma iat_last (c : string) (s : Series) (rest : DataFrame) :
  iat ((c, s) :: rest) (-1) 0 =
  match values s with
  | [] => Raise IndexError
  | _ => Ok (last_value s)
  end.
Proof.
  unfold iat.
  assert (H0 : py_index (List.length ((c, s) :: rest)) 0 = Some 0).
  { unfold py_index. simpl List.length.
    destruct ((0 <=? 0)%Z && (0 <? Z.of_nat (S (List.length rest)))%Z) eqn:E.
    - reflexivity.
    - apply andb_false_iff in E. destruct E as [E | E].
      + discriminate.
      + apply Z.ltb_ge in E. lia. }
  rewrite H0. cbn [nth_error].
  unfold last_value. generalize (values s). intros l.
  destruct l as [ | v vs ].
  - reflexivity.
  - assert (H1 : py_index (List.length (v :: vs)) (-1) = Some (List.length (v :: vs) - 1)).
    { unfold py_index. simpl List.length.
      replace ((0 <=? -1)%Z && (-1 <? Z.of_nat (S (List.length vs)))%Z) with false
        by reflexivity.
      destruct ((- Z.of_nat (S (List.length vs)) <=? -1)%Z && (-1 <? 0)%Z) eqn:E.
      - f_equal. lia.
      - apply andb_false_iff in E. destruct E as [E | E].
        + apply Z.leb_gt in E. lia.
        + discriminate. }
    rewrite H1.
    rewrite (nth_error_last (v :: vs) NaN) by discriminate.
    reflexivity.
Qed.

Lemma iat_empty (df : DataFrame) :
  rect 0 df -> iat df (-1) 0 = Raise IndexError.
Proof.
  intros H. destruct df as [ | [c s] rest ].
  - reflexivity.
  - rewrite iat_last. inversion H as [ | ? ? Hs _ ]; subst. simpl in Hs.
    destruct (values s); [ reflexivity | discriminate ].
Qed.

(** Dropping the row labelled [df.index[-1]] removes the last value of
    every column. *)
Lemma drop_index_last (n : nat) (df : DataFrame) :
  rect (S n) df -> df <> [] ->
  (label <- index_at df (-1) ;; drop df label) = Ok (drop_last df).
Proof.
  intros Hr Hne.
  assert (Hn : nrows df = S n).
  { destruct df as [ | [c s] rest ]; [ congruence | ].
    inversion Hr; subst. assumption. }
  unfold index_at. rewrite Hn.
  assert (H1 : py_index (S n) (-1) = Some n).
  { unfold py_index.
    replace ((0 <=? -1)%Z && (-1 <? Z.of_nat (S n))%Z) with false by reflexivity.
    destruct ((- Z.of_nat (S n) <=? -1)%Z && (-1 <? 0)%Z) eqn:E.
    - f_equal. lia.
    - apply andb_false_iff in E. destruct E as [E | E].
      + apply Z.leb_gt in E. lia.
      + discriminate. }
  rewrite H1. simpl bind. unfold drop. rewrite Hn.
  rewrite (proj2 (Nat.ltb_lt n (S n))) by lia.
  apply f_equal. unfold drop_last. apply map_ext_in.
  intros col Hin. unfold rect in Hr. rewrite Forall_forall in Hr.
  specialize (Hr col Hin).
  replace n with (List.length (values (snd col)) - 1) by lia.
  rewrite remove_at_last. reflexivity.
Qed.

Lemma drop_last_rect (n : nat) (df : DataFrame) :
  rect n df -> rect (n - 1) (drop_last df).
Proof.
  unfold rect, drop_last. intros H. apply Forall_map. simpl.
  eapply Forall_impl; [ | exact H ].
  intros col Hlen. simpl in *. rewrite length_removelast, Hlen. reflexivity.
Qed.

Lemma kept_frame_rect (n : nat) (s : string) (df : DataFrame) :
  rect n df -> rect (List.length (kept s (repeat tt n))) (kept_frame s df).
Proof.
  unfold kept, kept_frame. intros H.
  destruct (startswith (lower s) "arranged").
  - rewrite length_removelast, repeat_length. apply drop_last_rect, H.
  - rewrite repeat_length. exact H.
Qed.

Lemma setitem_stepped (conv : cell -> result cell) (c : string)
    (df : DataFrame) (l : string) (s new : Series) :
  filter (labelled c) df = [(l, s)] ->
  Forall2 (fun v v' => conv v = Ok v') (values s) (values new) ->
  Forall2 (stepped conv c) df (setitem df c new).
Proof.
  intros Hf Hconv. unfold setitem.
  assert (Hex : existsb (labelled c) df = true).
  { apply existsb_exists. exists (l, s).
    assert (Hin : In (l, s) (filter (labelled c) df)) by (rewrite Hf; left; reflexivity).
    apply filter_In in Hin. exact Hin. }
  rewrite Hex. apply Forall2_map_r.
  intros col Hin. unfold stepped.
  destruct (labelled c col) eqn:El; simpl.
  - split; [ reflexivity | ].
    rewrite (filter_singleton _ _ _ _ Hf Hin El). simpl. exact Hconv.
  - split; reflexivity.
Qed.

Lemma to_pounds_stepped (df df' : DataFrame) (c : string) :
  to_pounds df c = Ok df' ->
  Forall2 (stepped (fun v => to_numeric_cell (unpound v)) c) df df'.
Proof.
  unfold to_pounds, getitem. intros H.
  destruct (filter (labelled c) df) as [ | [l s] [ | col' cols ] ] eqn:Hf;
    simpl in H; try discriminate.
  destruct (dtype s); simpl in H; try discriminate.
  unfold to_numeric in H.
  destruct (mapM to_numeric_cell _) as [ vs | e ] eqn:Hm; simpl in H; [ | discriminate ].
  injection H as <-.
  eapply setitem_stepped; [ exact Hf | ].
  simpl. apply mapM_Forall2 in Hm.
  clear - Hm. revert vs Hm. induction (values s) as [ | v l IH ]; intros vs Hm.
  - inversion Hm. constructor.
  - simpl in Hm. inversion Hm; subst. constructor; [ | apply IH; assumption ].
    assumption.
Qed.

Lemma to_dates_stepped (df : DataFrame) (x : item) (t : Series) :
  getitem df "date" = Ok x -> to_datetime x = Ok t ->
  Forall2 (stepped to_datetime_cell "date") df (setitem df "date" (dt_date t)).
Proof.
  unfold getitem. intros Hg Ht.
  destruct (filter (labelled "date") df) as [ | [l s] [ | col' cols ] ] eqn:Hf;
    try discriminate.
  - injection Hg as <-. simpl in Ht.
    destruct (mapM to_datetime_cell (values s)) as [ vs | e ] eqn:Hm;
      simpl in Ht; [ | discriminate ].
    injection Ht as <-.
    eapply setitem_stepped; [ exact Hf | ].
    simpl. apply mapM_Forall2. exact Hm.
  - injection Hg as <-. simpl in Ht. discriminate.
Qed.

Lemma stepped_converted (c1 c2 c3 c4 : string * Series) :
  stepped (fun v => to_numeric_cell (unpound v)) "amount" c1 c2 ->
  stepped (fun v => to_numeric_cell (unpound v)) "balance" c2 c3 ->
  stepped to_datetime_cell "date" c3 c4 ->
  converted c1 c4.
Proof.
  unfold stepped, converted, labelled, convert_cell.
  intros (L1 & H1) (L2 & H2) (L3 & H3).
  rewrite L2, L1 in H3. rewrite L1 in H2.
  split; [ congruence | ].
  destruct (String.eqb_spec (fst c1) "amount") as [E | NE].
  - rewrite E in *. simpl in H2, H3 |- *. rewrite H3, H2. exact H1.
  - destruct (String.eqb_spec (fst c1) "balance") as [E' | NE'].
    + rewrite E' in *. simpl in H3 |- *. rewrite H3, <- H1. exact H2.
    + assert (Hm : mem (fst c1) ["amount"; "balance"] = false).
      { unfold mem. simpl.
        rewrite (proj2 (String.eqb_neq _ _) NE), (proj2 (String.eqb_neq _ _) NE').
        reflexivity. }
      rewrite Hm.
      destruct (String.eqb (fst c1) "date").
      * rewrite <- H1, <- H2. exact H3.
      * rewrite H3, H2, H1. apply Forall2_same. reflexivity.
Qed.

Lemma for_each_two (df df' : DataFrame) (a b : string) body :
  for_each [a; b] body df = Ok df' ->
  exists df1, body df a = Ok df1 /\ body df1 b = Ok df'.
Proof.
  simpl. intros H. destruct (body df a) as [ df1 | e ]; simpl in H; [ | discriminate ].
  exists df1. split; [ reflexivity | ].
  destruct (body df1 b); simpl in H; [ exact H | discriminate ].
Qed.

(** The conversions of [read_midata] after the rows are chosen, column for
    column. *)
Lemma conversions_converted (df out : DataFrame) :
  (df2 <- for_each ["amount"; "balance"] to_pounds df ;;
   x <- getitem df2 "date" ;;
   t <- to_datetime x ;;
   Ok (setitem df2 "date" (dt_date t))) = Ok out ->
  Forall2 converted df out.
Proof.
  intros H.
  destruct (for_each ["amount"; "balance"] to_pounds df) as [ df2 | e ] eqn:H2;
    simpl in H; [ | discriminate ].
  destruct (getitem df2 "date") as [ x | e ] eqn:Hx; simpl in H; [ | discriminate ].
  destruct (to_datetime x) as [ t | e ] eqn:Ht; simpl in H; [ | discriminate ].
  injection H as <-.
  apply for_each_two in H2. destruct H2 as (df1 & Ha & Hb).
  apply to_pounds_stepped in Ha, Hb.
  pose proof (to_dates_stepped _ _ _ Hx Ht) as Hd.
  assert (Hab : Forall2 (fun a c => exists b,
              stepped (fun v => to_numeric_cell (unpound v)) "amount" a b /\
              stepped (fun v => to_numeric_cell (unpound v)) "balance" b c) df df2).
  { eapply Forall2_compose; [ | exact Ha | exact Hb ].
    intros a b c Hab Hbc. exists b. split; assumption. }
  eapply Forall2_compose; [ | exact Hab | exact Hd ].
  intros a c d (b & Hab' & Hbc) Hcd.
  eapply stepped_converted; eassumption.
Qed.
Lemma read_midata_unfold (path : csv) :
  read_midata path =
  (df <- _check_midata_columns (read_csv path) ;;
   v <- iat df (-1) 0 ;;
   s <- str_lower v ;;
   df <- (if startswith s "arranged"
          then label <- index_at df (-1) ;; drop df label
          else Ok df) ;;
   conversions df).
Proof. reflexivity. Qed.

Lemma checked_shape (path : csv) (df1 : DataFrame) :
  _check_midata_columns (read_csv path) = Ok df1 ->
  rect (List.length (rows path)) df1 /\
  Forall (fun col => In (fst col) canonical) df1 /\
  exists sd rest,
    df1 = ("date", sd) :: rest /\ In ("date", sd) (normalised (read_csv path)).
Proof.
  intros H. apply check_ok in H. destruct H as [Hall ->].
  split; [ apply checked_rect, read_csv_rect | ].
  split; [ apply checked_labels | ].
  apply checked_head. apply Hall. simpl. tauto.
Qed.

(** Once the columns are checked and the last date field is text, what is
    left of [read_midata] is the conversions of the rows that are kept. *)
Lemma read_midata_rows (path : csv) (sd : Series) (rest : DataFrame) (s : string) :
  _check_midata_columns (read_csv path) = Ok (("date", sd) :: rest) ->
  last_value sd = Str s ->
  read_midata path = conversions (kept_frame s (("date", sd) :: rest)).
Proof.
  intros Hc Hl. rewrite read_midata_unfold, Hc. cbn [bind].
  rewrite iat_last.
  destruct (values sd) as [ | v vs ] eqn:Ev.
  - unfold last_value in Hl. rewrite Ev in Hl. discriminate.
  - rewrite Hl. cbn [bind str_lower]. unfold kept_frame.
    destruct (startswith (lower s) "arranged"); [ | reflexivity ].
    destruct (checked_shape _ _ Hc) as (Hr & _ & _).
    assert (Hn : List.length (rows path) = S (List.length vs)).
    { inversion Hr as [ | ? ? Hs _ ]; subst. simpl in Hs. rewrite Ev in Hs.
      simpl in Hs. congruence. }
    rewrite Hn in Hr.
    rewrite (drop_index_last _ _ Hr) by discriminate.
    reflexivity.
Qed.

(** What a successful parse went through. *)
Lemma read_midata_inv (path : csv) (out : DataFrame) :
  read_midata path = Ok out ->
  exists sd rest s,
    _check_midata_columns (read_csv path) = Ok (("date", sd) :: rest) /\
    In ("date", sd) (normalised (read_csv path)) /\
    values sd <> [] /\
    last_value sd = Str s /\
    Forall2 converted (kept_frame s (("date", sd) :: rest)) out.
Proof.
  intros H. pose proof H as H'. rewrite read_midata_unfold in H'.
  destruct (_check_midata_columns (read_csv path)) as [ df1 | e ] eqn:Hc;
    [ | discriminate ].
  destruct (checked_shape _ _ Hc) as (_ & _ & sd & rest & -> & Hsd).
  cbn [bind] in H'. rewrite iat_last in H'.
  destruct (values sd) as [ | v vs ] eqn:Ev; [ discriminate | ].
  cbn [bind] in H'.
  destruct (last_value sd) as [ s | | | | | | ] eqn:El; try discriminate.
  exists sd, rest, s. split; [ reflexivity | ].
  split; [ exact Hsd | ].
  split; [ rewrite Ev; discriminate | ].
  split; [ first [ exact El | reflexivity ] | ].
  rewrite (read_midata_rows _ _ _ _ Hc El) in H.
  apply conversions_converted. exact H.
Qed.

End Steps.

(* ===================================================================== *)
(** ** The table of five columns *)
(* ===================================================================== *)

Section FiveColumns.
Import PyStr Pandas Inputs Spec.

Lemma converted_columns (df out : DataFrame) :
  Forall2 converted df out -> columns out = columns df.
Proof.
  unfold columns. induction 1 as [ | a b df out (Hl & _) _ IH ]; simpl.
  - reflexivity.
  - rewrite Hl, IH. reflexivity.
Qed.

Lemma converted_rect (n : nat) (df out : DataFrame) :
  Forall2 converted df out -> rect n df -> rect n out.
Proof.
  unfold rect. induction 1 as [ | a b df out (_ & Hv) _ IH ]; intros Hr.
  - constructor.
  - constructor.
    + rewrite <- (Forall2_length Hv). exact (Forall_inv Hr).
    + apply IH. exact (Forall_inv_tail Hr).
Qed.

Lemma converted_nrows (df out : DataFrame) :
  Forall2 converted df out -> nrows out = nrows df.
Proof.
  destruct 1 as [ | [c s] [c' s'] df out (_ & Hv) _ ]; simpl.
  - reflexivity.
  - simpl in Hv. symmetry. exact (Forall2_length Hv).
Qed.

Lemma length_kept {A : Type} (s : string) (l : list A) :
  List.length (kept s l) =
  if startswith (lower s) "arranged" then List.length l - 1 else List.length l.
Proof.
  unfold kept. destruct (startswith (lower s) "arranged").
  - apply length_removelast.
  - reflexivity.
Qed.

Lemma kept_frame_nrows (s : string) (c : string) (x : Series) (rest : DataFrame) :
  nrows (kept_frame s ((c, x) :: rest)) = List.length (kept s (values x)).
Proof.
  unfold kept_frame, kept. destruct (startswith (lower s) "arranged"); reflexivity.
Qed.





End FiveColumns.

(* ===================================================================== *)
(** ** How the conversions end *)
(* ===================================================================== *)

Section Conversions.
Import PyStr Pandas Inputs Spec.

Lemma mapM_map {A B C : Type} (f : B -> result C) (g : A -> B) (l : list A) :
  mapM f (map g l) = mapM (fun a => f (g a)) l.
Proof.
  induction l as [ | a l IH ]; simpl.
  - reflexivity.
  - rewrite IH. reflexivity.
Qed.

Lemma mapM_outcome {A B : Type} (f : A -> result B) (e : exn) (l : list A) :
  (forall a, In a l -> f a = Raise e \/ exists b, f a = Ok b) ->
  mapM f l = Raise e \/ exists l', mapM f l = Ok l'.
Proof.
  induction l as [ | a l IH ]; intros H; simpl.
  - right. exists []. reflexivity.
  - destruct (H a (or_introl eq_refl)) as [Ha | (b & Ha)]; rewrite Ha; simpl.
    + left. reflexivity.
    + destruct IH as [IH | (l' & IH)].
      * intros a' Hin. apply H. right. exact Hin.
      * left. rewrite IH. reflexivity.
      * right. rewrite IH. simpl. exists (b :: l'). reflexivity.
Qed.

(** A money value either converts or raises the [ValueError] of
    [to_numeric]: nothing else. *)
Lemma money_outcome (v : cell) :
  to_numeric_cell (unpound v) = Raise (ValueError to_numeric_fn) \/
  exists b, to_numeric_cell (unpound v) = Ok b.
Proof.
  destruct v; unfold unpound, to_numeric_cell; try (right; eexists; reflexivity).
  destruct (to_numeric_str _); [ right; eexists; reflexivity | left; reflexivity ].
Qed.






Lemma date_outcome (v : cell) :
  to_datetime_cell v = Raise (ValueError to_datetime_fn) \/
  exists b, to_datetime_cell v = Ok b.
Proof.
  destruct v; unfold to_datetime_cell;
    try (right; eexists; reflexivity); try (left; reflexivity).
  destruct (String.eqb s "" || mem s nat_strings); [ right; eexists; reflexivity | ].
  destruct (strptime s); [ right; eexists; reflexivity | left; reflexivity ].
Qed.





Lemma Forall2_In_r {A B : Type} (R : A -> B -> Prop) (l : list A) (l' : list B) (b : B) :
  Forall2 R l l' -> In b l' -> exists a, In a l /\ R a b.
Proof.
  induction 1 as [ | a b' l l' Hab _ IH ]; intros Hin.
  - destruct Hin.
  - destruct Hin as [ <- | Hin ].
    + exists a. split; [ left; reflexivity | exact Hab ].
    + destruct (IH Hin) as (a' & Ha' & HR). exists a'. split; [ right | ]; assumption.
Qed.


End Conversions.

(* ===================================================================== *)
(** ** The properties of the specification *)
(* ===================================================================== *)

Section Claims.
Import PyStr Pandas Inputs Dashboard Spec Examples.

Lemma header_columns (path : csv) :
  columns (normalised (read_csv path)) = normalised_header path.
Proof. rewrite normalised_columns, read_csv_columns. reflexivity. Qed.

Lemma none_missing (path : csv) :
  missing_columns path = [] ->
  forall c, In c required -> mem c (columns (normalised (read_csv path))) = true.
Proof.
  intros Hm c Hc. rewrite header_columns.
  destruct (mem c (normalised_header path)) eqn:E; [ reflexivity | ].
  assert (Hin : In c (missing_columns path))
    by (apply filter_In; split; [ exact Hc | rewrite E; reflexivity ]).
  rewrite Hm in Hin. destruct Hin.
Qed.

Lemma append_assoc3 (a b c : string) : (a +++ b) +++ c = a +++ b +++ c.
Proof.
  induction a as [ | x a IH ]; simpl; [ reflexivity | rewrite IH; reflexivity ].
Qed.

Lemma human_join_last (l : list string) (a b : string) :
  human_join (l ++ [a; b]) = join ", " (l ++ [a]) +++ " and " +++ b.
Proof.
  induction l as [ | x l IH ].
  - reflexivity.
  - assert (H1 : human_join ((x :: l) ++ [a; b]) =
                 x +++ ", " +++ human_join (l ++ [a; b])).
    { destruct l as [ | y [ | z l ] ]; reflexivity. }
    assert (H2 : join ", " ((x :: l) ++ [a]) = x +++ ", " +++ join ", " (l ++ [a])).
    { destruct l as [ | y l ]; reflexivity. }
    rewrite H1, H2, IH, !append_assoc3. reflexivity.
Qed.

(** C4. An input that lacks required columns after the normalisation of
    the header fails with [MidataCSVError]; the message lists the missing
    names and only them, quoted, separated by commas, with "and" and no
    comma before the last. *)
Theorem C4_missing_columns_message (path : csv) :
  missing_columns path <> [] ->
  read_midata path =
    Raise (MidataCSVError
             ("the following columns are missing from midata CSV: "
              +++ human_join (map quoted (missing_columns path)))) /\
  (forall c, In c (missing_columns path) <->
             In c required /\ ~ In c (normalised_header path)) /\
  (forall a, human_join [a] = a) /\
  (forall l a b, human_join (l ++ [a; b]) =
                 join ", " (l ++ [a]) +++ " and " +++ b).
Proof.
  intros Hne. split; [ | split; [ | split ] ].
  - rewrite read_midata_unfold.
    unfold missing_columns in Hne. rewrite <- header_columns in Hne.
    rewrite (check_missing (read_csv path) Hne). cbn [bind].
    rewrite header_columns. reflexivity.
  - intros c. unfold missing_columns. split.
    + intros H. apply filter_In in H. destruct H as [H1 H2].
      split; [ exact H1 | ]. intros Hin. apply mem_In in Hin.
      rewrite Hin in H2. discriminate.
    + intros [H1 H2]. apply filter_In. split; [ exact H1 | ].
      destruct (mem c (normalised_header path)) eqn:E; [ | reflexivity ].
      apply mem_In in E. contradiction.
  - reflexivity.
  - apply human_join_last.
Qed.

Lemma C4_missing_columns_message_witness :
  read_midata missing_three =
    Raise (MidataCSVError
             "the following columns are missing from midata CSV: 'merchant/description', 'debit/credit' and 'balance'").
Proof.
  refine (proj1 (C4_missing_columns_message missing_three _)).
  vm_compute. discriminate.
Defined.

(** C9. With the five columns in the header and no data line, parsing
    returns no table and raises none of the parse errors: reading the last
    row of the empty table raises [IndexError]. *)
Theorem C9_no_rows_IndexError (path : csv) :
  rows path = [] ->
  missing_columns path = [] ->
  read_midata path = Raise IndexError.
Proof.
  intros Hrows Hm. rewrite read_midata_unfold.
  rewrite (check_total _ (none_missing path Hm)). cbn [bind].
  rewrite iat_empty; [ reflexivity | ].
  apply checked_rect. pose proof (read_csv_rect path) as Hr.
  rewrite Hrows in Hr. exact Hr.
Qed.

Lemma C9_no_rows_IndexError_witness : read_midata no_rows = Raise IndexError.
Proof.
  apply (C9_no_rows_IndexError no_rows); reflexivity.
Defined.

Lemma replace_pound (t : string) : replace t pound "" = without_pounds t.
Proof.
  unfold replace, pound. induction t as [ | c t IH ].
  - reflexivity.
  - cbn [replace_from prefix without_pounds String.length Nat.sub].
    destruct (ascii_dec pound_char c) as [E | NE].
    + subst c. rewrite Ascii.eqb_refl. cbn [append].
      replace (prefix "" t) with true by (destruct t; reflexivity). exact IH.
    + rewrite (proj2 (Ascii.eqb_neq c pound_char)) by congruence.
      rewrite IH. reflexivity.
Qed.

Lemma without_pounds_clean (t : string) : has_pound (without_pounds t) = false.
Proof.
  induction t as [ | c t IH ]; simpl.
  - reflexivity.
  - destruct (Ascii.eqb c pound_char) eqn:E; [ exact IH | ].
    simpl. rewrite E, IH. reflexivity.
Qed.

(** C10. Stripping takes out every pound sign of a value, wherever it
    stands: the amount 12[pound]3.45 and the balance
    [pound][pound]123.45 both parse to 123.45. *)
Theorem C10_every_pound_sign_removed :
  (forall t, replace t pound "" = without_pounds t) /\
  (forall t, has_pound (replace t pound "") = false) /\
  read_midata inner_pounds =
    Ok (five (text [Date 2023 1 1]) (text [Str "Payment"]) (text [Str "Shop"])
             (numbers [Num q_123_45]) (numbers [Num q_123_45])).
Proof.
  split; [ exact replace_pound | split ].
  - intros t. rewrite replace_pound. apply without_pounds_clean.
  - vm_compute. reflexivity.
Qed.

(** C2, as the code has it.  On the two-row scenario parsing succeeds and
    returns both rows: the first as the specification gives it, and the
    overdraft row itself, with the date 2023-01-02, no description, no
    amount and the balance 0.  The row stays because the field that is
    inspected is its date, not its type. *)
Theorem C2_scenario_keeps_both_rows :
  read_midata scenario = Ok scenario_out /\
  columns scenario_out = ["date"; "type"; "description"; "amount"; "balance"] /\
  records scenario_out =
    [[Date 2023 1 1; Str "Payment"; Str "Shop"; Num (inject_Z (-20)); Num (inject_Z 980)];
     [Date 2023 1 2; Str "Arranged Overdraft Limit"; NaN; NaN; Num (inject_Z 0)]].
Proof.
  split; [ vm_compute; reflexivity | split; reflexivity ].
Qed.

(** C2 as stated fails: the scenario yields two records, not one. *)
Lemma C2_scenario_not_one_record :
  exists out, read_midata scenario = Ok out /\ List.length (records out) = 2.
Proof.
  exists scenario_out. split; [ vm_compute; reflexivity | reflexivity ].
Qed.

(** The shape of what a successful parse returns. *)
Lemma parsed_shape (path : csv) (out : DataFrame) :
  read_midata path = Ok out ->
  exists sd rest s,
    _check_midata_columns (read_csv path) = Ok (("date", sd) :: rest) /\
    In ("date", sd) (normalised (read_csv path)) /\
    last_value sd = Str s /\
    Forall2 converted (kept_frame s (("date", sd) :: rest)) out /\
    nrows out = List.length (kept s (rows path)) /\
    rect (nrows out) out.
Proof.
  intros H. destruct (read_midata_inv _ _ H) as (sd & rest & s & Hc & Hin & _ & Hl & Hconv).
  exists sd, rest, s. repeat (split; [ assumption | ]).
  destruct (checked_shape _ _ Hc) as (Hr & _ & _).
  assert (Hn : nrows out = List.length (kept s (rows path))).
  { rewrite (converted_nrows _ _ Hconv), kept_frame_nrows, !length_kept.
    pose proof (Forall_inv Hr) as Hsd. simpl in Hsd. rewrite Hsd. reflexivity. }
  split; [ exact Hn | ].
  rewrite Hn. apply (converted_rect _ _ _ Hconv).
  pose proof (kept_frame_rect _ s _ Hr) as Hk.
  rewrite !length_kept in *. rewrite repeat_length in Hk. exact Hk.
Qed.

(** C1, as the code has it.  The field that decides is the date field of
    the last row, the first column of the table once the columns are
    selected.  When a parsed input has there a text that starts with
    "arranged", whatever the case, the table returned has one row fewer than
    the input and holds, column for column and in order, the conversions of
    all rows but the last; when the text does not start so, the table has as
    many rows as the input and holds the conversions of all of them. *)
Theorem C1_last_date_field_decides_drop (path : csv) (out : DataFrame) :
  read_midata path = Ok out ->
  exists sd rest s,
    _check_midata_columns (read_csv path) = Ok (("date", sd) :: rest) /\
    In ("date", sd) (normalised (read_csv path)) /\
    last_value sd = Str s /\
    (startswith (lower s) "arranged" = true ->
       nrows out = List.length (rows path) - 1 /\
       Forall2 converted (drop_last (("date", sd) :: rest)) out) /\
    (startswith (lower s) "arranged" = false ->
       nrows out = List.length (rows path) /\
       Forall2 converted (("date", sd) :: rest) out).
Proof.
  intros H.
  destruct (parsed_shape _ _ H) as (sd & rest & s & Hc & Hin & Hl & Hconv & Hn & _).
  exists sd, rest, s. repeat (split; [ assumption | ]).
  rewrite length_kept in Hn. unfold kept_frame in Hconv.
  split; intros Hs; rewrite Hs in *; split; assumption.
Qed.

Lemma C1_last_date_field_decides_drop_witness :
  exists sd rest s,
    _check_midata_columns (read_csv statement) = Ok (("date", sd) :: rest) /\
    In ("date", sd) (normalised (read_csv statement)) /\
    last_value sd = Str s /\
    (startswith (lower s) "arranged" = true ->
       nrows statement_out = List.length (rows statement) - 1 /\
       Forall2 converted (drop_last (("date", sd) :: rest)) statement_out) /\
    (startswith (lower s) "arranged" = false ->
       nrows statement_out = List.length (rows statement) /\
       Forall2 converted (("date", sd) :: rest) statement_out).
Proof.
  apply (C1_last_date_field_decides_drop statement statement_out).
  vm_compute. reflexivity.
Defined.

(** C1 as stated fails both ways.  In [scenario] the type of the last row
    starts with "arranged" and no row is dropped; in [statement] the type of
    the last row does not start with "arranged" and the row is dropped. *)
Lemma C1_type_field_not_inspected :
  (startswith (lower (last_field scenario "type")) "arranged" = true /\
   exists out, read_midata scenario = Ok out /\
               nrows out = List.length (rows scenario)) /\
  (startswith (lower (last_field statement "type")) "arranged" = false /\
   exists out, read_midata statement = Ok out /\
               nrows out = List.length (rows statement) - 1).
Proof.
  split; (split; [ reflexivity | ]).
  - exists scenario_out. split; [ vm_compute; reflexivity | reflexivity ].
  - exists statement_out. split; [ vm_compute; reflexivity | reflexivity ].
Qed.







(** *** The date format *)

Lemma split_char_cons (sep : ascii) (t : string) :
  exists w ws, split_char sep t = w :: ws.
Proof.
  destruct t as [ | c t ]; simpl.
  - eexists. eexists. reflexivity.
  - destruct (Ascii.eqb c sep); [ eexists; eexists; reflexivity | ].
    destruct (split_char sep t); eexists; eexists; reflexivity.
Qed.

(** Splitting at a character and joining with it gives the text back. *)
Lemma concat_cons2 (sep x y : string) (l : list string) :
  String.concat sep (x :: y :: l) = x +++ sep +++ String.concat sep (y :: l).
Proof. reflexivity. Qed.

Lemma split_char_join (sep : ascii) (t : string) :
  join (String sep "") (split_char sep t) = t.
Proof.
  unfold join. induction t as [ | c t IH ].
  - reflexivity.
  - cbn [split_char]. destruct (Ascii.eqb_spec c sep) as [ -> | NE ].
    + destruct (split_char_cons sep t) as (w & ws & E). rewrite E in *.
      rewrite concat_cons2, IH. reflexivity.
    + destruct (split_char_cons sep t) as (w & ws & E). rewrite E in *.
      rewrite <- IH. destruct ws; reflexivity.
Qed.

(** A text that the format accepts is a day, a slash, a month, a slash and
    a year, each in the form its directive allows. *)
Lemma strptime_shape (t : string) (v : cell) :
  strptime t = Some v ->
  exists d m y dd mm yy,
    t = d +++ "/" +++ m +++ "/" +++ y /\
    day_token d = Some dd /\ month_token m = Some mm /\ year_token y = Some yy /\
    valid_date yy mm dd = true /\ in_bounds yy mm dd = true /\
    v = Date yy mm dd.
Proof.
  unfold strptime. intros H. pose proof (split_char_join "/" t) as Hj.
  destruct (split_char "/" t) as [ | d [ | m [ | y [ | ] ] ] ]; try discriminate.
  destruct (day_token d) as [ dd | ] eqn:Ed; [ | discriminate ].
  destruct (month_token m) as [ mm | ] eqn:Em; [ | discriminate ].
  destruct (year_token y) as [ yy | ] eqn:Ey; [ | discriminate ].
  destruct (valid_date yy mm dd && in_bounds yy mm dd) eqn:Ev; [ | discriminate ].
  apply andb_true_iff in Ev. destruct Ev as [Ev Eb].
  injection H as <-. exists d, m, y, dd, mm, yy.
  repeat split; try assumption. symmetry. exact Hj.
Qed.




















Lemma kept_frame_columns (s : string) (df : DataFrame) :
  columns (kept_frame s df) = columns df.
Proof.
  unfold kept_frame, drop_last, columns.
  destruct (startswith (lower s) "arranged"); [ | reflexivity ].
  rewrite map_map. reflexivity.
Qed.

(** A parsed table has no column of absolute amounts. *)
Lemma parsed_no_abs_amount (path : csv) (out : DataFrame) :
  read_midata path = Ok out -> mem "abs_amount" (columns out) = false.
Proof.
  intros H.
  destruct (parsed_shape _ _ H) as (sd & rest & s & Hc & _ & _ & Hconv & _ & _).
  rewrite (converted_columns _ _ Hconv), kept_frame_columns.
  destruct (checked_shape _ _ Hc) as (_ & Hlab & _).
  destruct (mem "abs_amount" (columns (("date", sd) :: rest))) eqn:E; [ | reflexivity ].
  apply mem_In in E. unfold columns in E. apply in_map_iff in E.
  destruct E as (col & Hf & Hin).
  rewrite Forall_forall in Hlab. specialize (Hlab col Hin). rewrite Hf in Hlab.
  simpl in Hlab.
  repeat (destruct Hlab as [Hlab | Hlab]; [ discriminate | ]).
  destruct Hlab.
Qed.



End Claims.

(* ===================================================================== *)
(** ** Further properties of [read_midata]: how it fails *)
(* ===================================================================== *)

Section Failures.
Import PyStr Pandas Inputs Dashboard Spec Examples Props.

Lemma check_passed (path : csv) (df1 : DataFrame) :
  _check_midata_columns (read_csv path) = Ok df1 -> missing_columns path = [].
Proof.
  intros H. apply check_ok in H. destruct H as [Hall _].
  unfold missing_columns. apply filter_none. intros c Hc.
  rewrite <- header_columns, (Hall c Hc). reflexivity.
Qed.

Lemma check_failed (path : csv) (e : exn) :
  _check_midata_columns (read_csv path) = Raise e ->
  missing_columns path <> [] /\
  e = MidataCSVError (missing_message (missing_columns path)).
Proof.
  intros H. split.
  - intros Hm. rewrite (check_total _ (none_missing path Hm)) in H. discriminate.
  - apply check_raise in H. rewrite header_columns in H. exact H.
Qed.

(** The table that the check returns has a column for every required
    name, under its canonical name. *)
Lemma checked_has (df : DataFrame) (c : string) :
  mem c (columns (normalised df)) = true ->
  In c required ->
  mem (lookup rename_map c) (columns (checked df)) = true.
Proof.
  intros Hm Hc.
  destruct (filter (labelled c) (normalised df)) as [ | col cols ] eqn:E.
  - apply filter_labelled_nil in E. congruence.
  - assert (Hin : In col (filter (labelled c) (normalised df)))
      by (rewrite E; left; reflexivity).
    pose proof (proj2 (proj1 (filter_In _ _ _) Hin)) as Hl.
    apply labelled_eq in Hl.
    apply mem_In. unfold checked, rename, columns. rewrite map_map.
    apply in_map_iff. exists col. split; [ cbn [fst]; rewrite Hl; reflexivity | ].
    unfold located. apply in_flat_map. exists c. split; assumption.
Qed.

Lemma stepped_columns conv (c : string) (df df' : DataFrame) :
  Forall2 (stepped conv c) df df' -> columns df' = columns df.
Proof.
  unfold columns. induction 1 as [ | a b df df' (Hl & _) _ IH ]; simpl.
  - reflexivity.
  - rewrite Hl, IH. reflexivity.
Qed.

Lemma to_pounds_columns (df df' : DataFrame) (c : string) :
  to_pounds df c = Ok df' -> columns df' = columns df.
Proof.
  intros H. eapply stepped_columns. apply to_pounds_stepped. exact H.
Qed.

(** With its column in the table, the conversion of the amounts, or of the
    balances, fails in two ways only. *)
Lemma to_pounds_raise (df : DataFrame) (c : string) (e : exn) :
  mem c (columns df) = true ->
  to_pounds df c = Raise e ->
  e = AttributeError \/ e = ValueError to_numeric_fn.
Proof.
  intros Hm. unfold to_pounds, getitem.
  destruct (filter (labelled c) df) as [ | [l s] [ | col' cols ] ] eqn:Hf.
  - apply filter_labelled_nil in Hf. congruence.
  - cbn [bind str_replace]. destruct (dtype s); cbn [bind];
      try (intros H; injection H as <-; left; reflexivity).
    unfold to_numeric. rewrite mapM_map.
    destruct (mapM_outcome (fun v => to_numeric_cell
                (match v with Str t => Str (replace t pound "") | _ => NaN end))
                (ValueError to_numeric_fn) (values s)
                (fun a _ => money_outcome a)) as [-> | (vs & ->)]; cbn [bind].
    + intros H. injection H as <-. right. reflexivity.
    + discriminate.
  - cbn [bind str_replace]. intros H. injection H as <-. left. reflexivity.
Qed.

Lemma to_dates_raise (df : DataFrame) (e : exn) :
  mem "date" (columns df) = true ->
  (x <- getitem df "date" ;; t <- to_datetime x ;;
   Ok (setitem df "date" (dt_date t))) = Raise e ->
  e = ValueError to_datetime_fn.
Proof.
  intros Hm. unfold getitem.
  destruct (filter (labelled "date") df) as [ | [l s] [ | col' cols ] ] eqn:Hf.
  - apply filter_labelled_nil in Hf. congruence.
  - cbn [bind to_datetime].
    destruct (mapM_outcome to_datetime_cell (ValueError to_datetime_fn) (values s)
                (fun a _ => date_outcome a)) as [-> | (vs & ->)]; cbn [bind].
    + intros H. injection H as <-. reflexivity.
    + discriminate.
  - cbn [bind to_datetime]. intros H. injection H as <-. reflexivity.
Qed.

Lemma conversions_raise (df : DataFrame) (e : exn) :
  mem "amount" (columns df) = true ->
  mem "balance" (columns df) = true ->
  mem "date" (columns df) = true ->
  conversions df = Raise e ->
  e = AttributeError \/ e = ValueError to_numeric_fn \/ e = ValueError to_datetime_fn.
Proof.
  intros Ha Hb Hd. unfold conversions. cbn [for_each].
  destruct (to_pounds df "amount") as [ df1 | e1 ] eqn:E1; cbn [bind].
  - destruct (to_pounds df1 "balance") as [ df2 | e2 ] eqn:E2; cbn [bind].
    + intros H. right. right. apply (to_dates_raise df2); [ | exact H ].
      rewrite (to_pounds_columns _ _ _ E2), (to_pounds_columns _ _ _ E1). exact Hd.
    + intros H. injection H as <-.
      destruct (to_pounds_raise df1 "balance" e2) as [-> | ->];
        [ rewrite (to_pounds_columns _ _ _ E1); exact Hb | exact E2 | tauto | tauto ].
  - intros H. injection H as <-.
    destruct (to_pounds_raise df "amount" e1 Ha E1) as [-> | ->]; tauto.
Qed.

Lemma rows_of_checked (path : csv) (sd : Series) (rest : DataFrame) :
  _check_midata_columns (read_csv path) = Ok (("date", sd) :: rest) ->
  List.length (values sd) = List.length (rows path).
Proof.
  intros Hc. destruct (checked_shape _ _ Hc) as (Hr & _ & _).
  exact (Forall_inv Hr).
Qed.

(** With the five columns in the header and no data line the parse raises
    [IndexError]. *)
Lemma no_rows_raise (path : csv) :
  rows path = [] -> missing_columns path = [] ->
  read_midata path = Raise IndexError.
Proof.
  intros Hrows Hm. rewrite read_midata_unfold.
  rewrite (check_total _ (none_missing path Hm)). cbn [bind].
  rewrite iat_empty; [ reflexivity | ].
  apply checked_rect. pose proof (read_csv_rect path) as Hr.
  rewrite Hrows in Hr. exact Hr.
Qed.

(** The ways in which [read_midata] fails, and when. *)
Lemma read_midata_failure (path : csv) (e : exn) :
  read_midata path = Raise e ->
  (missing_columns path <> [] /\
   e = MidataCSVError (missing_message (missing_columns path))) \/
  (missing_columns path = [] /\ rows path = [] /\ e = IndexError) \/
  (missing_columns path = [] /\ rows path <> [] /\
   (e = AttributeError \/ e = ValueError to_numeric_fn \/
    e = ValueError to_datetime_fn)).
Proof.
  intros H.
  destruct (_check_midata_columns (read_csv path)) as [ df1 | e1 ] eqn:Hc.
  - right. pose proof (check_passed _ _ Hc) as Hm.
    destruct (rows path) as [ | r rs ] eqn:Hrows.
    + left. rewrite (no_rows_raise path Hrows Hm) in H. injection H as <-. tauto.
    + right. split; [ exact Hm | split; [ discriminate | ] ].
      destruct (checked_shape _ _ Hc) as (_ & _ & sd & rest & -> & _).
      pose proof (rows_of_checked _ _ _ Hc) as Hlen. rewrite Hrows in Hlen.
      destruct (last_value sd) as [ s | | | | | | ] eqn:El.
      2-7: rewrite read_midata_unfold, Hc in H; cbn [bind] in H;
           rewrite iat_last in H;
           destruct (values sd); [ discriminate | ];
           rewrite El in H; cbn [bind str_lower] in H;
           injection H as <-; left; reflexivity.
      rewrite (read_midata_rows _ _ _ _ Hc El) in H.
      apply check_ok in Hc. destruct Hc as [Hall Hc].
      apply (conversions_raise (kept_frame s (("date", sd) :: rest)) e);
        [ | | | exact H ]; rewrite kept_frame_columns, Hc.
      * apply (checked_has _ "debit/credit"); [ apply Hall | ]; simpl; tauto.
      * apply (checked_has _ "balance"); [ apply Hall | ]; simpl; tauto.
      * apply (checked_has _ "date"); [ apply Hall | ]; simpl; tauto.
  - left. rewrite read_midata_unfold, Hc in H. cbn [bind] in H.
    injection H as <-. apply check_failed. exact Hc.
Qed.



(** [read_midata] raises [IndexError] exactly when the header has the
    five columns and the file has no data line. *)
Theorem IndexError_iff_no_rows (path : csv) :
  read_midata path = Raise IndexError <->
  missing_columns path = [] /\ rows path = [].
Proof.
  split.
  - intros H. destruct (read_midata_failure _ _ H)
      as [(_ & He) | [(Hm & Hr & _) | (_ & _ & [He | [He | He]])]];
      try discriminate. split; assumption.
  - intros [Hm Hr]. apply no_rows_raise; assumption.
Qed.

(** [read_midata] raises [MidataCSVError] exactly when a required column
    is missing, whatever the data lines hold, and then with the message
    that lists the missing columns: the check of the columns comes before
    everything else. *)
Theorem MidataCSVError_iff_missing (path : csv) (msg : string) :
  read_midata path = Raise (MidataCSVError msg) <->
  missing_columns path <> [] /\ msg = missing_message (missing_columns path).
Proof.
  split.
  - intros H. destruct (read_midata_failure _ _ H)
      as [(Hm & He) | [(_ & _ & He) | (_ & _ & [He | [He | He]])]];
      try discriminate. injection He as ->. split; [ exact Hm | reflexivity ].
  - intros [Hm ->]. rewrite read_midata_unfold.
    unfold missing_columns in Hm. rewrite <- header_columns in Hm.
    rewrite (check_missing (read_csv path) Hm). cbn [bind].
    rewrite header_columns. reflexivity.
Qed.

(** Of the failures of [read_midata], a handler for
    [BaseBanalysisException] catches the missing columns and nothing else;
    every failure is an [Exception]. *)
Theorem only_missing_columns_is_a_banalysis_exception (path : csv) (e : exn) :
  read_midata path = Raise e ->
  (Errors.isinstance e Errors.BaseBanalysisException = true <->
   missing_columns path <> []) /\
  Errors.isinstance e Errors.Exception = true.
Proof.
  intros H. destruct (read_midata_failure _ _ H)
    as [(Hm & ->) | [(Hm & _ & ->) | (Hm & _ & [-> | [-> | ->]])]];
    (split; [ split; [ intros Hi; try discriminate Hi; exact Hm
                     | intros Hn; try reflexivity; contradiction ]
            | reflexivity ]).
Qed.

Lemma only_missing_columns_is_a_banalysis_exception_witness :
  (Errors.isinstance
     (MidataCSVError
        "the following columns are missing from midata CSV: 'merchant/description', 'debit/credit' and 'balance'")
     Errors.BaseBanalysisException = true <->
   missing_columns missing_three <> []) /\
  Errors.isinstance
    (MidataCSVError
       "the following columns are missing from midata CSV: 'merchant/description', 'debit/credit' and 'balance'")
    Errors.Exception = true.
Proof.
  apply (only_missing_columns_is_a_banalysis_exception missing_three).
  vm_compute. reflexivity.
Defined.

(** *** From the cells back to the fields of the file *)

Lemma select_from (c : string) (lines : list (list string)) (names : list string)
    (j : nat) :
  mem c (map normalise names) = true ->
  match filter (labelled c) (normalised (read_columns j names lines)) with
  | col :: _ => snd col
  | [] => mkSeries object_ []
  end = infer_column (field_column (j + position c (map normalise names)) lines).
Proof.
  revert j. induction names as [ | n names IH ]; intros j Hm.
  - discriminate.
  - cbn [read_columns]. unfold normalised. cbn [map fst snd filter position].
    unfold labelled at 1. cbn [fst].
    destruct (String.eqb (normalise n) c) eqn:E.
    + cbn [snd]. rewrite Nat.add_0_r. reflexivity.
    + rewrite Nat.add_succ_r. apply (IH (S j)).
      unfold mem in Hm |- *. cbn [map existsb] in Hm.
      rewrite String.eqb_sym, E in Hm. exact Hm.
Qed.

(** A selected column is the column of the file at the position of its
    name, read with the type that its fields give it. *)
Lemma select_raw (path : csv) (c : string) :
  mem c (normalised_header path) = true ->
  select path c = infer_column (raw_column path c).
Proof.
  intros Hm. unfold select, read_csv, raw_column, normalised_header.
  apply (select_from c (rows path) (header path) 0 Hm).
Qed.

Lemma last_map {A B : Type} (g : A -> B) (l : list A) (d : A) (d' : B) :
  l <> [] -> last (map g l) d' = g (last l d).
Proof.
  induction l as [ | a l IH ]; intros Hne; [ congruence | ].
  destruct l as [ | b l ]; [ reflexivity | ].
  change (last (map g (a :: b :: l)) d') with (last (map g (b :: l)) d').
  change (last (a :: b :: l) d) with (last (b :: l) d).
  apply IH. discriminate.
Qed.

Lemma infer_column_values (fields : list string) :
  exists conv, values (infer_column fields) = map (read_as conv) fields.
Proof.
  unfold infer_column. destruct fields as [ | f fields ].
  - exists (fun _ => None). reflexivity.
  - repeat match goal with |- context [if ?b then _ else _] => destruct b end;
      eexists; reflexivity.
Qed.

Lemma raw_column_last (path : csv) (c : string) :
  rows path <> [] -> last (raw_column path c) "" = last_field path c.
Proof.
  intros Hne. unfold raw_column, field_column, last_field.
  apply (last_map (fun line => nth (position c (normalised_header path)) line "")
           (rows path) [] "" Hne).
Qed.

Lemma raw_column_length (path : csv) (c : string) :
  List.length (raw_column path c) = List.length (rows path).
Proof. unfold raw_column, field_column. apply length_map. Qed.

(** The first column of the checked table is the selected date column. *)
Lemma checked_first (path : csv) :
  mem "date" (columns (normalised (read_csv path))) = true ->
  exists rest, checked (read_csv path) = ("date", select path "date") :: rest.
Proof.
  intros H. unfold checked, located, required, select. cbn [flat_map].
  destruct (filter (labelled "date") (normalised (read_csv path)))
    as [ | col cols ] eqn:E.
  - apply filter_labelled_nil in E. congruence.
  - assert (Hl : fst col = "date").
    { apply labelled_eq.
      assert (Hin : In col (filter (labelled "date") (normalised (read_csv path))))
        by (rewrite E; left; reflexivity).
      apply filter_In in Hin. tauto. }
    destruct col as [l sd]. cbn [fst] in Hl. subst l.
    eexists. reflexivity.
Qed.

(** When the last line has no date, an empty field or another spelling of
    a missing value, the parse raises [AttributeError]: the missing value
    has no method [lower]. *)
Theorem last_line_without_date_AttributeError (path : csv) :
  missing_columns path = [] ->
  rows path <> [] ->
  is_na (last_field path "date") = true ->
  read_midata path = Raise AttributeError.
Proof.
  intros Hm Hrows Hna.
  pose proof (none_missing path Hm) as Hall.
  assert (Hd : mem "date" (columns (normalised (read_csv path))) = true)
    by (apply Hall; simpl; tauto).
  destruct (checked_first path Hd) as (rest & Hck).
  assert (Hlast : last_value (select path "date") = NaN).
  { unfold last_value. rewrite select_raw by (rewrite <- header_columns; exact Hd).
    destruct (infer_column_values (raw_column path "date")) as (conv & ->).
    rewrite (last_map _ _ "" NaN).
    - rewrite raw_column_last by exact Hrows. unfold read_as. rewrite Hna.
      reflexivity.
    - intros E. apply (f_equal (@List.length string)) in E.
      rewrite raw_column_length in E. destruct (rows path); [ congruence | discriminate ]. }
  rewrite read_midata_unfold, (check_total _ Hall), Hck. cbn [bind].
  rewrite iat_last.
  destruct (values (select path "date")) as [ | v vs ] eqn:Ev.
  - assert (Hlen : List.length (values (select path "date")) = List.length (rows path)).
    { apply (rows_of_checked path _ rest). rewrite (check_total _ Hall), Hck.
      reflexivity. }
    rewrite Ev in Hlen. destruct (rows path); [ congruence | discriminate ].
  - rewrite Hlast. reflexivity.
Qed.

Lemma last_line_without_date_AttributeError_witness :
  read_midata no_last_date = Raise AttributeError.
Proof.
  apply (last_line_without_date_AttributeError no_last_date).
  - reflexivity.
  - discriminate.
  - reflexivity.
Defined.



End Failures.

(* ===================================================================== *)
(** ** Further properties of [read_midata]: what it returns *)
(* ===================================================================== *)

Section Tables.
Import PyStr Pandas Inputs Dashboard Spec Examples Props.

(** The check is not to be run twice: the table it returns has the
    canonical names, and under them the check misses the two columns that
    it renamed. *)
Theorem check_rejects_its_own_result (df df1 : DataFrame) :
  _check_midata_columns df = Ok df1 ->
  _check_midata_columns df1 =
    Raise (MidataCSVError
             "the following columns are missing from midata CSV: 'merchant/description' and 'debit/credit'").
Proof.
  intros H. apply check_ok in H. destruct H as [Hall ->].
  assert (Hin : forall c, In c required ->
            normalise (lookup rename_map c) = lookup rename_map c ->
            mem (lookup rename_map c) (columns (normalised (checked df))) = true).
  { intros c Hc Hn. rewrite normalised_columns. apply mem_In.
    rewrite <- Hn. apply in_map. apply mem_In.
    apply checked_has; [ apply Hall | ]; exact Hc. }
  assert (Hout : forall c, ~ In c canonical ->
            mem c (columns (normalised (checked df))) = false).
  { intros c Hc. destruct (mem c (columns (normalised (checked df)))) eqn:E;
      [ | reflexivity ].
    exfalso. apply Hc. apply mem_In in E. rewrite normalised_columns in E.
    apply in_map_iff in E. destruct E as (l & Hl & Hlin).
    unfold columns in Hlin. apply in_map_iff in Hlin.
    destruct Hlin as (col & Hf & Hcol).
    pose proof (checked_labels df) as Hlab. rewrite Forall_forall in Hlab.
    specialize (Hlab col Hcol). rewrite Hf in Hlab. rewrite <- Hl.
    simpl in Hlab.
    repeat (destruct Hlab as [ <- | Hlab ]; [ simpl; tauto | ]).
    destruct Hlab. }
  assert (Hf : filter (fun c => negb (mem c (columns (normalised (checked df)))))
                 required
               = ["merchant/description"; "debit/credit"]).
  { assert (H1 : mem "date" (columns (normalised (checked df))) = true)
      by (apply (Hin "date"); [ simpl; tauto | reflexivity ]).
    assert (H2 : mem "type" (columns (normalised (checked df))) = true)
      by (apply (Hin "type"); [ simpl; tauto | reflexivity ]).
    assert (H3 : mem "balance" (columns (normalised (checked df))) = true)
      by (apply (Hin "balance"); [ simpl; tauto | reflexivity ]).
    assert (H4 : mem "merchant/description" (columns (normalised (checked df))) = false)
      by (apply Hout; simpl; intuition discriminate).
    assert (H5 : mem "debit/credit" (columns (normalised (checked df))) = false)
      by (apply Hout; simpl; intuition discriminate).
    unfold required. cbn [filter]. rewrite H1, H2, H3, H4, H5. reflexivity. }
  rewrite check_missing by (rewrite Hf; discriminate).
  rewrite Hf. reflexivity.
Qed.

Lemma check_rejects_its_own_result_witness :
  _check_midata_columns (checked (read_csv statement)) =
    Raise (MidataCSVError
             "the following columns are missing from midata CSV: 'merchant/description' and 'debit/credit'").
Proof.
  apply (check_rejects_its_own_result (read_csv statement)).
  vm_compute. reflexivity.
Defined.

(** *** An overdraft line elsewhere than at the end *)

Lemma lower_char_a (c : ascii) :
  lower_char c = "a"%char -> c = "a"%char \/ c = "A"%char.
Proof.
  destruct c as [b0 b1 b2 b3 b4 b5 b6 b7].
  destruct b0, b1, b2, b3, b4, b5, b6, b7; vm_compute; intros H;
    first [ discriminate H | left; reflexivity | right; reflexivity ].
Qed.

Lemma arranged_head (t : string) :
  startswith (lower t) "arranged" = true ->
  exists c t', t = String c t' /\ (c = "a"%char \/ c = "A"%char).
Proof.
  unfold startswith. destruct t as [ | c t' ]; [ discriminate | ].
  cbn [lower prefix]. destruct (ascii_dec "a" (lower_char c)) as [E | NE];
    [ | discriminate ].
  intros _. exists c, t'. split; [ reflexivity | ].
  apply lower_char_a. symmetry. exact E.
Qed.

Lemma day_token_letter_a (c : ascii) (w : string) :
  c = "a"%char \/ c = "A"%char -> day_token (String c w) = None.
Proof.
  intros [-> | ->]; destruct w as [ | b [ | b' w ] ]; reflexivity.
Qed.

(** A text that starts with "arranged" is no date. *)
Lemma arranged_is_no_date (t : string) :
  startswith (lower t) "arranged" = true ->
  to_datetime_cell (Str t) = Raise (ValueError to_datetime_fn).
Proof.
  intros H. destruct (arranged_head t H) as (c & t' & -> & Hc).
  unfold to_datetime_cell.
  assert (Hn : String.eqb (String c t') "" || mem (String c t') nat_strings = false)
    by (destruct Hc as [-> | ->]; reflexivity).
  rewrite Hn.
  assert (Hs : strptime (String c t') = None).
  { unfold strptime. cbn [split_char].
    assert (Hsl : Ascii.eqb c "/" = false) by (destruct Hc as [-> | ->]; reflexivity).
    rewrite Hsl. destruct (split_char_cons "/" t') as (w & ws & ->).
    destruct ws as [ | m [ | y [ | z ws ] ] ]; try reflexivity.
    rewrite (day_token_letter_a c w Hc). reflexivity. }
  rewrite Hs. reflexivity.
Qed.

Lemma In_removelast {A : Type} (x : A) (l : list A) :
  In x (removelast l) -> In x l.
Proof.
  destruct l as [ | a l ] using rev_ind; [ intros [] | ].
  rewrite removelast_last. intros H. apply in_or_app. left. exact H.
Qed.

Lemma In_kept {A : Type} (s : string) (x : A) (l : list A) :
  In x (removelast l) -> In x (kept s l).
Proof.
  unfold kept. destruct (startswith (lower s) "arranged");
    [ tauto | apply In_removelast ].
Qed.

Lemma checked_is_selected (path : csv) (sd : Series) (rest : DataFrame) :
  _check_midata_columns (read_csv path) = Ok (("date", sd) :: rest) ->
  sd = select path "date".
Proof.
  intros Hc. pose proof Hc as Hc'. apply check_ok in Hc'.
  destruct Hc' as [Hall Heq].
  destruct (checked_first path) as (rest' & Hck); [ apply Hall; simpl; tauto | ].
  rewrite Hck in Heq. injection Heq as -> _. reflexivity.
Qed.

(** Only the last line is looked at: when a parse succeeds, no date field
    of another line starts with "arranged".  An overdraft line that is not
    the last line is not dropped and makes the parse fail. *)
Theorem overdraft_line_only_at_the_end (path : csv) (out : DataFrame) (t : string) :
  read_midata path = Ok out ->
  In (Str t) (removelast (values (select path "date"))) ->
  startswith (lower t) "arranged" = false.
Proof.
  intros H Hin.
  destruct (parsed_shape _ _ H) as (sd & rest & s & Hc & _ & _ & Hconv & _ & _).
  rewrite <- (checked_is_selected _ _ _ Hc) in Hin.
  assert (Hk : exists rest', kept_frame s (("date", sd) :: rest)
                             = ("date", kept_series s sd) :: rest').
  { unfold kept_frame, kept_series, kept, drop_last.
    destruct (startswith (lower s) "arranged"); cbn [map fst snd].
    - eexists. reflexivity.
    - destruct sd. eexists. reflexivity. }
  destruct Hk as (rest' & Hk). rewrite Hk in Hconv.
  inversion Hconv as [ | cin cout ? ? (_ & Hv) _ ]; subst.
  cbn [fst snd values kept_series] in Hv.
  apply (In_kept s) in Hin.
  destruct (startswith (lower t) "arranged") eqn:E; [ | reflexivity ].
  exfalso. clear - Hv Hin E.
  induction Hv as [ | v v' l l' Hvv _ IH ]; [ destruct Hin | ].
  destruct Hin as [ -> | Hin ]; [ | exact (IH Hin) ].
  change (convert_cell "date" (Str t)) with (to_datetime_cell (Str t)) in Hvv.
  rewrite (arranged_is_no_date t E) in Hvv. discriminate.
Qed.

Lemma overdraft_line_only_at_the_end_witness :
  startswith (lower "01/01/2023") "arranged" = false.
Proof.
  apply (overdraft_line_only_at_the_end statement statement_out "01/01/2023").
  - vm_compute. reflexivity.
  - vm_compute. left. reflexivity.
Defined.

(** Such a file is refused: the overdraft line in first place, the dates
    fail. *)
Lemma overdraft_first_refused :
  read_midata overdraft_first = Raise (ValueError to_datetime_fn).
Proof. vm_compute. reflexivity. Qed.

(** *** The columns of a parsed table *)



(** *** The dates of a parsed table *)

Lemma read_as_raw (conv : string -> option cell) (f : string) :
  (forall v, conv f = Some v -> raw_cell v = true) ->
  raw_cell (read_as conv f) = true.
Proof.
  intros H. unfold read_as. destruct (is_na f); [ reflexivity | ].
  destruct (conv f) as [ v | ]; [ apply H; reflexivity | reflexivity ].
Qed.

Lemma csv_number_raw (f : string) (v : cell) :
  csv_number f = Some v -> raw_cell v = true.
Proof.
  unfold csv_number. destruct (infinity_of f) as [ i | ] eqn:Ei.
  - intros H. injection H as <-. unfold infinity_of in Ei.
    repeat match type of Ei with
           | (if ?b then _ else _) = _ => destruct b
           end; try discriminate; injection Ei as <-; reflexivity.
  - destruct (xstrtod f); simpl; [ | discriminate ].
    intros H. injection H as <-. reflexivity.
Qed.

Lemma csv_bool_raw (f : string) (v : cell) :
  csv_bool f = Some v -> raw_cell v = true.
Proof.
  unfold csv_bool.
  repeat match goal with |- context [if ?b then _ else _] => destruct b end;
    try discriminate; intros H; injection H as <-; reflexivity.
Qed.

(** [read_csv] produces no date: a column holds text, numbers, booleans
    and missing values. *)
Lemma infer_column_raw (fields : list string) :
  forallb raw_cell (values (infer_column fields)) = true.
Proof.
  unfold infer_column. destruct fields as [ | f fields ]; [ reflexivity | ].
  repeat match goal with |- context [if ?b then _ else _] => destruct b end;
    cbn [values]; apply forallb_forall; intros v Hin;
    apply in_map_iff in Hin; destruct Hin as (g & <- & _);
    apply read_as_raw; intros w Hw;
    first [ exact (csv_number_raw _ _ Hw) | exact (csv_bool_raw _ _ Hw)
          | discriminate Hw ].
Qed.

Lemma read_columns_raw (j : nat) (names : list string) lines :
  Forall (fun col => forallb raw_cell (values (snd col)) = true)
         (read_columns j names lines).
Proof.
  revert j. induction names as [ | c names IH ]; intros j; simpl; constructor.
  - apply infer_column_raw.
  - apply IH.
Qed.

Lemma checked_raw (path : csv) :
  Forall (fun col => forallb raw_cell (values (snd col)) = true)
         (checked (read_csv path)).
Proof.
  unfold checked, rename. apply Forall_map. cbn [snd].
  unfold located. apply Forall_flat_map. apply Forall_forall. intros c _.
  apply Forall_forall. intros col Hin. apply filter_In in Hin.
  destruct Hin as [Hin _]. unfold normalised in Hin. apply in_map_iff in Hin.
  destruct Hin as (col0 & <- & Hin0). cbn [snd].
  pose proof (read_columns_raw 0 (header path) (rows path)) as Hraw.
  rewrite Forall_forall in Hraw. exact (Hraw col0 Hin0).
Qed.

Lemma kept_frame_raw (s : string) (df : DataFrame) :
  Forall (fun col => forallb raw_cell (values (snd col)) = true) df ->
  Forall (fun col => forallb raw_cell (values (snd col)) = true) (kept_frame s df).
Proof.
  unfold kept_frame. destruct (startswith (lower s) "arranged"); [ | tauto ].
  intros H. unfold drop_last. apply Forall_map. cbn [snd values].
  eapply Forall_impl; [ | exact H ]. intros col Hc.
  apply forallb_forall. intros v Hv. apply In_removelast in Hv.
  rewrite forallb_forall in Hc. exact (Hc v Hv).
Qed.

Lemma date_converted_sound (v v' : cell) :
  raw_cell v = true -> to_datetime_cell v = Ok v' -> sound_date v' = true.
Proof.
  destruct v; unfold to_datetime_cell; try discriminate;
    try (intros _ H; injection H as <-; reflexivity).
  intros _. destruct (String.eqb s "" || mem s nat_strings);
    [ intros H; injection H as <-; reflexivity | ].
  destruct (strptime s) as [ d | ] eqn:Es; [ | discriminate ].
  intros H. injection H as <-.
  destruct (strptime_shape _ _ Es) as (? & ? & ? & dd & mm & yy & _ & _ & _ & _ & Hv & Hb & ->).
  cbn [sound_date]. rewrite Hv, Hb. reflexivity.
Qed.

(** Every date of a parsed table is a day of the calendar between
    1677-09-22 and 2262-04-11, or [NaT]. *)
Theorem dates_of_a_parsed_table_are_sound (path : csv) (out : DataFrame)
    (so : Series) :
  read_midata path = Ok out ->
  In ("date", so) out ->
  forallb sound_date (values so) = true.
Proof.
  intros H Hin.
  destruct (parsed_shape _ _ H) as (sd & rest & s & Hc & _ & _ & Hconv & _ & _).
  destruct (Forall2_In_r _ _ _ _ Hconv Hin) as (cin & Hcin & (Hl & Hv)).
  cbn [fst snd] in Hl, Hv.
  assert (Hraw : forallb raw_cell (values (snd cin)) = true).
  { pose proof (kept_frame_raw s _ (checked_raw path)) as Hk.
    apply check_ok in Hc. destruct Hc as [_ Hc]. rewrite <- Hc in Hk.
    rewrite Forall_forall in Hk. exact (Hk cin Hcin). }
  rewrite <- Hl in Hv.
  apply forallb_forall. intros v' Hv'.
  destruct (Forall2_In_r _ _ _ _ Hv Hv') as (v & Hvin & Hvv).
  change (convert_cell "date" v) with (to_datetime_cell v) in Hvv.
  rewrite forallb_forall in Hraw.
  exact (date_converted_sound v v' (Hraw v Hvin) Hvv).
Qed.

Lemma dates_of_a_parsed_table_are_sound_witness :
  forallb sound_date [Date 2023 1 1] = true.
Proof.
  apply (dates_of_a_parsed_table_are_sound statement statement_out
           (text [Date 2023 1 1])).
  - vm_compute. reflexivity.
  - left. reflexivity.
Defined.

End Tables.

(* ===================================================================== *)
(** ** Further properties of the update handler *)
(* ===================================================================== *)

Section Handler.
Import PyStr Pandas Inputs Dashboard Spec Examples Props.

Lemma filter_setitem (c : string) (df : DataFrame) (new : Series) :
  filter (labelled c)
    (map (fun col => if labelled c col then (fst col, new) else col) df)
  = map (fun col => (fst col, new)) (filter (labelled c) df).
Proof.
  induction df as [ | col df IH ]; [ reflexivity | ].
  cbn [map filter]. destruct (labelled c col) eqn:E.
  - unfold labelled at 1. cbn [fst]. unfold labelled in E. rewrite E.
    cbn [map]. rewrite IH. reflexivity.
  - rewrite E. exact IH.
Qed.

(** A parsed table has one date column, with a value for every row. *)
Lemma parsed_date_series (path : csv) (out : DataFrame) :
  read_midata path = Ok out ->
  exists so, getitem out "date" = Ok (ASeries so) /\
             In ("date", so) out /\
             List.length (values so) = nrows out.
Proof.
  intros H.
  destruct (parsed_shape _ _ H) as (sd & rest & s & Hc & _ & Hl & _ & _ & Hr).
  rewrite (read_midata_rows _ _ _ _ Hc Hl) in H. unfold conversions in H.
  destruct (for_each ["amount"; "balance"] to_pounds _) as [ df2 | e ];
    [ | discriminate ].
  cbn [bind] in H. unfold getitem in H.
  destruct (filter (labelled "date") df2) as [ | [l x] [ | col' cols ] ] eqn:Hf;
    try discriminate.
  - cbn [bind] in H.
    destruct (to_datetime (ASeries x)) as [ t | e ]; [ | discriminate ].
    cbn [bind] in H. injection H as <-.
    assert (Hex : existsb (labelled "date") df2 = true).
    { apply existsb_exists. exists (l, x).
      assert (Hin : In (l, x) (filter (labelled "date") df2))
        by (rewrite Hf; left; reflexivity).
      apply filter_In in Hin. exact Hin. }
    assert (Hl' : l = "date").
    { assert (Hin : In (l, x) (filter (labelled "date") df2))
        by (rewrite Hf; left; reflexivity).
      apply filter_In in Hin. destruct Hin as [_ Hin]. apply labelled_eq in Hin.
      exact Hin. }
    subst l.
    assert (Hg : filter (labelled "date") (setitem df2 "date" (dt_date t))
                 = [("date", dt_date t)]).
    { unfold setitem. rewrite Hex, filter_setitem, Hf. reflexivity. }
    exists (dt_date t).
    assert (Hin : In ("date", dt_date t) (setitem df2 "date" (dt_date t))).
    { assert (Hin : In ("date", dt_date t)
                      (filter (labelled "date") (setitem df2 "date" (dt_date t))))
        by (rewrite Hg; left; reflexivity).
      apply filter_In in Hin. tauto. }
    split; [ unfold getitem; rewrite Hg; reflexivity | ].
    split; [ exact Hin | ].
    unfold rect in Hr. rewrite Forall_forall in Hr. exact (Hr _ Hin).
Qed.

(** What the handler does once the parse has succeeded: the data of the
    source are replaced, the bounds of the dates are computed, and the
    selection of the column of absolute amounts raises [KeyError]. *)
Lemma update_after_parse (self : Dashboard) (new : csv) (df : DataFrame) (so : Series) :
  read_midata new = Ok df ->
  getitem df "date" = Ok (ASeries so) ->
  _update_source self new =
  match (lo <- py_min (values so) ;; hi <- py_max (values so) ;; Ok (lo, hi)) with
  | Ok bounds => (mkDashboard df bounds (y_range self), Raise KeyError)
  | Raise e => (mkDashboard df (x_range self) (y_range self), Raise e)
  end.
Proof.
  intros H Hg. unfold _update_source. rewrite H, Hg. cbn [bind iterate].
  pose proof (loc_columns_absent df ["balance"] "abs_amount"
                (parsed_no_abs_amount _ _ H)) as Habs.
  cbn [app] in Habs. rewrite Habs. cbn [bind].
  destruct (lo <- py_min (values so) ;; hi <- py_max (values so) ;; Ok (lo, hi));
    reflexivity.
Qed.

(** When the parse returns a table without rows, the handler replaces the
    data and then fails on the minimum of no dates: [ValueError], both
    ranges as they were. *)
Theorem empty_table_ValueError (self : Dashboard) (new : csv) (df : DataFrame) :
  read_midata new = Ok df ->
  nrows df = 0 ->
  _update_source self new =
    (mkDashboard df (x_range self) (y_range self), Raise ValueError_builtin).
Proof.
  intros H Hn. destruct (parsed_date_series _ _ H) as (so & Hg & _ & Hlen).
  rewrite (update_after_parse self new df so H Hg).
  rewrite Hn in Hlen. destruct (values so); [ reflexivity | discriminate ].
Qed.

Lemma empty_table_ValueError_witness :
  _update_source some_dashboard overdraft_only =
    (mkDashboard
       (five (text []) (text []) (text []) (numbers []) (numbers []))
       (Num 0, Num 0) (0%Z, 10000%Z),
     Raise ValueError_builtin).
Proof.
  apply (empty_table_ValueError some_dashboard overdraft_only
           (five (text []) (text []) (text []) (numbers []) (numbers [])));
    vm_compute; reflexivity.
Defined.

(** *** The order of the dates *)










End Handler.

(* ===================================================================== *)
(** ** Further properties: the names of the header *)
(* ===================================================================== *)

Section Header.
Import PyStr Pandas Inputs Dashboard Spec Examples Props.

Lemma normalised_read_columns (j : nat) (names : list string) lines :
  normalised (read_columns j names lines)
  = read_columns j (map normalise names) lines.
Proof.
  revert j. induction names as [ | c names IH ]; intros j.
  - reflexivity.
  - cbn [read_columns map]. unfold normalised in *. cbn [map fst snd].
    rewrite IH. reflexivity.
Qed.

(** The check sees the names of the columns only after normalisation. *)
Lemma check_normalised (df df' : DataFrame) :
  normalised df = normalised df' ->
  _check_midata_columns df = _check_midata_columns df'.
Proof.
  intros H. unfold _check_midata_columns. rewrite !set_columns_map.
  change (map (fun col => (lower (strip (fst col)), snd col)) df)
    with (normalised df).
  change (map (fun col => (lower (strip (fst col)), snd col)) df')
    with (normalised df').
  rewrite H. reflexivity.
Qed.

(** Two files with the same lines, whose header names are the same after
    trimming and lowercasing, are parsed alike: same table or same
    exception.  Case and surrounding white space of the header names play
    no part. *)
Theorem header_case_and_space_play_no_part (h1 h2 : list string)
    (lines : list (list string)) :
  map normalise h1 = map normalise h2 ->
  read_midata (mkCsv h1 lines) = read_midata (mkCsv h2 lines).
Proof.
  intros H. rewrite !read_midata_unfold.
  rewrite (check_normalised (read_csv (mkCsv h1 lines)) (read_csv (mkCsv h2 lines))).
  - reflexivity.
  - unfold read_csv. cbn [header rows]. rewrite !normalised_read_columns, H.
    reflexivity.
Qed.

Lemma header_case_and_space_play_no_part_witness :
  read_midata (mkCsv midata_header (rows statement))
  = read_midata (mkCsv [" DATE"; "type  "; "Merchant/description"; "debit/CREDIT";
                        "  Balance "] (rows statement)).
Proof.
  apply (header_case_and_space_play_no_part midata_header).
  vm_compute. reflexivity.
Defined.

(** *** Normalising twice *)

Lemma isspace_lower_char (c : ascii) : isspace (lower_char c) = isspace c.
Proof.
  destruct c as [b0 b1 b2 b3 b4 b5 b6 b7].
  destruct b0, b1, b2, b3, b4, b5, b6, b7; reflexivity.
Qed.

Lemma lower_char_twice (c : ascii) : lower_char (lower_char c) = lower_char c.
Proof.
  destruct c as [b0 b1 b2 b3 b4 b5 b6 b7].
  destruct b0, b1, b2, b3, b4, b5, b6, b7; reflexivity.
Qed.

Lemma lower_twice (s : string) : lower (lower s) = lower s.
Proof.
  induction s as [ | c s IH ]; simpl; [ reflexivity | ].
  rewrite lower_char_twice, IH. reflexivity.
Qed.

Lemma lstrip_lower (s : string) : lstrip (lower s) = lower (lstrip s).
Proof.
  induction s as [ | c s IH ]; [ reflexivity | ].
  cbn [lower lstrip]. rewrite isspace_lower_char.
  destruct (isspace c); [ exact IH | reflexivity ].
Qed.

Lemma rstrip_lower (s : string) : rstrip (lower s) = lower (rstrip s).
Proof.
  induction s as [ | c s IH ]; [ reflexivity | ].
  cbn [lower rstrip]. rewrite IH, isspace_lower_char.
  destruct (rstrip s) as [ | a r ]; cbn [lower].
  - destruct (isspace c); reflexivity.
  - reflexivity.
Qed.

Lemma strip_lower (s : string) : strip (lower s) = lower (strip s).
Proof. unfold strip. rewrite lstrip_lower, rstrip_lower. reflexivity. Qed.

Lemma lstrip_head (s : string) :
  lstrip s = "" \/ exists c r, lstrip s = String c r /\ isspace c = false.
Proof.
  induction s as [ | c s IH ]; [ left; reflexivity | ].
  cbn [lstrip]. destruct (isspace c) eqn:E; [ exact IH | ].
  right. exists c, s. split; [ reflexivity | exact E ].
Qed.

Lemma rstrip_twice (s : string) : rstrip (rstrip s) = rstrip s.
Proof.
  induction s as [ | c s IH ]; [ reflexivity | ].
  cbn [rstrip]. destruct (rstrip s) as [ | a r ] eqn:E.
  - destruct (isspace c) eqn:Ec; [ reflexivity | ].
    cbn [rstrip]. rewrite Ec. reflexivity.
  - cbn [rstrip]. cbn [rstrip] in IH. rewrite IH. reflexivity.
Qed.

Lemma strip_twice (s : string) : strip (strip s) = strip s.
Proof.
  unfold strip. destruct (lstrip_head s) as [ -> | (c & r & -> & Hc) ].
  - reflexivity.
  - assert (Hl : lstrip (rstrip (String c r)) = rstrip (String c r)).
    { cbn [rstrip]. destruct (rstrip r) as [ | a r' ].
      - rewrite Hc. cbn [lstrip]. rewrite Hc. reflexivity.
      - cbn [lstrip]. rewrite Hc. reflexivity. }
    rewrite Hl. apply rstrip_twice.
Qed.

(** Normalising a name that is normalised changes nothing, so that a file
    whose header is already trimmed and in lower case is parsed like the
    file as it came. *)
Theorem normalising_is_idempotent :
  (forall c, normalise (normalise c) = normalise c) /\
  (forall h lines,
     read_midata (mkCsv (map normalise h) lines) = read_midata (mkCsv h lines)).
Proof.
  assert (Hn : forall c, normalise (normalise c) = normalise c).
  { intros c. unfold normalise. rewrite strip_lower, lower_twice, strip_twice.
    reflexivity. }
  split; [ exact Hn | ].
  intros h lines. rewrite !read_midata_unfold.
  rewrite (check_normalised (read_csv (mkCsv (map normalise h) lines))
             (read_csv (mkCsv h lines))).
  - reflexivity.
  - unfold read_csv. cbn [header rows]. rewrite !normalised_read_columns.
    rewrite map_map. f_equal. apply map_ext. exact Hn.
Qed.

End Header.

(* ===================================================================== *)
(** ** Further properties: the characters of a number *)
(* ===================================================================== *)

Section Numbers.
Import PyStr Pandas Inputs Dashboard Spec Examples Props.















End Numbers.

(* ===================================================================== *)
(** ** Further properties: columns that occur more than once *)
(* ===================================================================== *)

Section Repeats.
Import PyStr Pandas Inputs Dashboard Spec Examples Props.

Lemma filter_labelled_fst (c : string) (df : DataFrame) :
  map fst (filter (labelled c) df)
  = repeat c (List.length (filter (labelled c) df)).
Proof.
  induction df as [ | col df IH ]; [ reflexivity | ].
  cbn [filter]. destruct (labelled c col) eqn:E; [ | exact IH ].
  cbn [map List.length repeat]. rewrite IH, (labelled_eq _ _ E). reflexivity.
Qed.

Lemma located_columns (df : DataFrame) (labels : list string) :
  columns (located df labels)
  = flat_map (fun c => repeat c (List.length (filter (String.eqb c) (columns df))))
             labels.
Proof.
  unfold columns, located. induction labels as [ | c labels IH ]; [ reflexivity | ].
  cbn [flat_map]. rewrite map_app, IH, filter_labelled_fst, filter_labelled_length.
  reflexivity.
Qed.

(** The names of the columns of the table that the check returns: the
    canonical names in their order, each as many times as its required name
    occurs among the normalised names. *)
Lemma checked_columns (df : DataFrame) :
  columns (checked df)
  = repeat "date" (List.length (filter (String.eqb "date") (columns (normalised df))))
    ++ repeat "type" (List.length (filter (String.eqb "type") (columns (normalised df))))
    ++ repeat "description"
         (List.length (filter (String.eqb "merchant/description") (columns (normalised df))))
    ++ repeat "amount"
         (List.length (filter (String.eqb "debit/credit") (columns (normalised df))))
    ++ repeat "balance"
         (List.length (filter (String.eqb "balance") (columns (normalised df)))).
Proof.
  unfold checked, rename.
  change (columns (map (fun col => (lookup rename_map (fst col), snd col))
                       (located (normalised df) required)))
    with (map fst (map (fun col : string * Series =>
                          (lookup rename_map (fst col), snd col))
                       (located (normalised df) required))).
  rewrite map_map. cbn [fst].
  rewrite <- (map_map fst (lookup rename_map)).
  change (map fst (located (normalised df) required))
    with (columns (located (normalised df) required)).
  rewrite located_columns. unfold required. cbn [flat_map].
  rewrite !map_app, !map_repeat, app_nil_r. reflexivity.
Qed.

Lemma present_once (c : string) (l : list string) :
  mem c l = true -> 1 <= List.length (filter (String.eqb c) l).
Proof.
  intros H. apply mem_In in H.
  assert (Hin : In c (filter (String.eqb c) l))
    by (apply filter_In; split; [ exact H | apply String.eqb_refl ]).
  destruct (filter (String.eqb c) l); [ destruct Hin | simpl; lia ].
Qed.

(** The table that the check returns has its columns in the canonical
    order, whatever their order in the file: first the dates, then the
    types, the descriptions, the amounts and the balances; a required name
    that occurs several times after normalisation gives as many columns. *)
Theorem check_returns_the_canonical_order (df df1 : DataFrame) :
  _check_midata_columns df = Ok df1 ->
  exists n1 n2 n3 n4 n5,
    n1 = List.length (filter (String.eqb "date") (map normalise (columns df))) /\
    n2 = List.length (filter (String.eqb "type") (map normalise (columns df))) /\
    n3 = List.length (filter (String.eqb "merchant/description")
                             (map normalise (columns df))) /\
    n4 = List.length (filter (String.eqb "debit/credit") (map normalise (columns df))) /\
    n5 = List.length (filter (String.eqb "balance") (map normalise (columns df))) /\
    1 <= n1 /\ 1 <= n2 /\ 1 <= n3 /\ 1 <= n4 /\ 1 <= n5 /\
    columns df1 = repeat "date" n1 ++ repeat "type" n2 ++ repeat "description" n3
                  ++ repeat "amount" n4 ++ repeat "balance" n5.
Proof.
  intros H. apply check_ok in H. destruct H as [Hall ->].
  do 5 eexists. do 5 (split; [ reflexivity | ]).
  rewrite <- normalised_columns.
  repeat (split; [ apply present_once, Hall; simpl; tauto | ]).
  apply checked_columns.
Qed.

Lemma check_returns_the_canonical_order_witness :
  exists n1 n2 n3 n4 n5,
    n1 = List.length (filter (String.eqb "date")
                        (map normalise (columns (read_csv extra_type)))) /\
    n2 = List.length (filter (String.eqb "type")
                        (map normalise (columns (read_csv extra_type)))) /\
    n3 = List.length (filter (String.eqb "merchant/description")
                        (map normalise (columns (read_csv extra_type)))) /\
    n4 = List.length (filter (String.eqb "debit/credit")
                        (map normalise (columns (read_csv extra_type)))) /\
    n5 = List.length (filter (String.eqb "balance")
                        (map normalise (columns (read_csv extra_type)))) /\
    1 <= n1 /\ 1 <= n2 /\ 1 <= n3 /\ 1 <= n4 /\ 1 <= n5 /\
    columns (checked (read_csv extra_type))
    = repeat "date" n1 ++ repeat "type" n2 ++ repeat "description" n3
      ++ repeat "amount" n4 ++ repeat "balance" n5.
Proof.
  apply (check_returns_the_canonical_order (read_csv extra_type)).
  vm_compute. reflexivity.
Defined.

Lemma filter_repeat (a c : string) (n : nat) :
  filter (String.eqb a) (repeat c n) = if String.eqb a c then repeat c n else [].
Proof.
  induction n as [ | n IH ]; cbn [repeat filter].
  - destruct (String.eqb a c); reflexivity.
  - rewrite IH. destruct (String.eqb a c); reflexivity.
Qed.

Lemma count_in_canonical (a : string) (n1 n2 n3 n4 n5 : nat) :
  List.length (filter (String.eqb a)
                 (repeat "date" n1 ++ repeat "type" n2 ++ repeat "description" n3
                  ++ repeat "amount" n4 ++ repeat "balance" n5))
  = (if String.eqb a "date" then n1 else 0)
    + (if String.eqb a "type" then n2 else 0)
    + (if String.eqb a "description" then n3 else 0)
    + (if String.eqb a "amount" then n4 else 0)
    + (if String.eqb a "balance" then n5 else 0).
Proof.
  rewrite !filter_app, !filter_repeat, !length_app.
  destruct (String.eqb a "date"), (String.eqb a "type"),
    (String.eqb a "description"), (String.eqb a "amount"),
    (String.eqb a "balance"); cbn [List.length]; rewrite ?repeat_length; lia.
Qed.

Lemma count_of_date (n1 n2 n3 n4 n5 : nat) :
  List.length (filter (String.eqb "date")
                 (repeat "date" n1 ++ repeat "type" n2 ++ repeat "description" n3
                  ++ repeat "amount" n4 ++ repeat "balance" n5)) = n1.
Proof. rewrite count_in_canonical. cbn. lia. Qed.

Lemma count_of_amount (n1 n2 n3 n4 n5 : nat) :
  List.length (filter (String.eqb "amount")
                 (repeat "date" n1 ++ repeat "type" n2 ++ repeat "description" n3
                  ++ repeat "amount" n4 ++ repeat "balance" n5)) = n4.
Proof. rewrite count_in_canonical. cbn. lia. Qed.

Lemma count_of_balance (n1 n2 n3 n4 n5 : nat) :
  List.length (filter (String.eqb "balance")
                 (repeat "date" n1 ++ repeat "type" n2 ++ repeat "description" n3
                  ++ repeat "amount" n4 ++ repeat "balance" n5)) = n5.
Proof. rewrite count_in_canonical. cbn. lia. Qed.

Lemma to_pounds_single (df df' : DataFrame) (c : string) :
  to_pounds df c = Ok df' ->
  List.length (filter (String.eqb c) (columns df)) = 1.
Proof.
  rewrite <- filter_labelled_length. unfold to_pounds, getitem.
  destruct (filter (labelled c) df) as [ | [l s] [ | col' cols ] ];
    try discriminate; reflexivity.
Qed.

Lemma to_dates_single (df : DataFrame) (x : item) (t : Series) :
  getitem df "date" = Ok x -> to_datetime x = Ok t ->
  List.length (filter (String.eqb "date") (columns df)) = 1.
Proof.
  rewrite <- filter_labelled_length. unfold getitem.
  destruct (filter (labelled "date") df) as [ | [l s] [ | col' cols ] ];
    try discriminate.
  - reflexivity.
  - intros H. injection H as <-. discriminate.
Qed.

(** A parse succeeds only when the date, the amounts and the balances have
    one column each: a second column whose name normalises to date, to
    debit/credit or to balance makes it fail.  The table returned has one
    date column first, the type and description columns as often as they
    occur, then one column of amounts and one of balances. *)
Theorem parse_needs_one_date_and_one_of_each_money_column (path : csv)
    (out : DataFrame) :
  read_midata path = Ok out ->
  List.length (filter (String.eqb "date") (normalised_header path)) = 1 /\
  List.length (filter (String.eqb "debit/credit") (normalised_header path)) = 1 /\
  List.length (filter (String.eqb "balance") (normalised_header path)) = 1 /\
  columns out =
    ["date"]
    ++ repeat "type" (List.length (filter (String.eqb "type") (normalised_header path)))
    ++ repeat "description"
         (List.length (filter (String.eqb "merchant/description")
                              (normalised_header path)))
    ++ ["amount"; "balance"].
Proof.
  intros H.
  destruct (parsed_shape _ _ H) as (sd & rest & s & Hc & _ & Hl & Hconv & _ & _).
  pose proof (converted_columns _ _ Hconv) as Hcols.
  rewrite kept_frame_columns in Hcols.
  rewrite (read_midata_rows _ _ _ _ Hc Hl) in H. unfold conversions in H.
  destruct (for_each ["amount"; "balance"] to_pounds _) as [ df2 | e ] eqn:E2;
    [ | discriminate ].
  cbn [bind] in H.
  destruct (getitem df2 "date") as [ x | e ] eqn:Ex; [ | discriminate ].
  cbn [bind] in H.
  destruct (to_datetime x) as [ t | e ] eqn:Et; [ | discriminate ].
  apply for_each_two in E2. destruct E2 as (df1 & Ea & Eb).
  pose proof (to_pounds_single _ _ _ Ea) as Na.
  pose proof (to_pounds_single _ _ _ Eb) as Nb.
  pose proof (to_dates_single _ _ _ Ex Et) as Nd.
  rewrite (to_pounds_columns _ _ _ Eb), (to_pounds_columns _ _ _ Ea) in Nd.
  rewrite (to_pounds_columns _ _ _ Ea) in Nb.
  rewrite kept_frame_columns in Na, Nb, Nd.
  apply check_ok in Hc. destruct Hc as [_ Hc].
  rewrite Hc, checked_columns, header_columns in Na, Nb, Nd, Hcols.
  rewrite count_of_amount in Na. rewrite count_of_balance in Nb.
  rewrite count_of_date in Nd.
  rewrite Hcols, Na, Nb, Nd. repeat split.
Qed.

Lemma parse_needs_one_date_and_one_of_each_money_column_witness :
  List.length (filter (String.eqb "date") (normalised_header extra_type)) = 1 /\
  List.length (filter (String.eqb "debit/credit") (normalised_header extra_type)) = 1 /\
  List.length (filter (String.eqb "balance") (normalised_header extra_type)) = 1 /\
  columns [("date", text [Date 2023 1 1]);
           ("type", text [Str "Payment"]);
           ("type", text [Str "x"]);
           ("description", text [Str "Shop"]);
           ("amount", numbers [Num (inject_Z (-20))]);
           ("balance", numbers [Num (inject_Z 980)])] =
    ["date"]
    ++ repeat "type" (List.length (filter (String.eqb "type")
                                          (normalised_header extra_type)))
    ++ repeat "description"
         (List.length (filter (String.eqb "merchant/description")
                              (normalised_header extra_type)))
    ++ ["amount"; "balance"].
Proof.
  apply (parse_needs_one_date_and_one_of_each_money_column extra_type).
  vm_compute. reflexivity.
Defined.

End Repeats.

(* ===================================================================== *)
(** ** Further properties: the files that are accepted *)
(* ===================================================================== *)

Section Acceptance.
Import PyStr Pandas Inputs Dashboard Spec Examples Props.






End Acceptance.
